(** * tornado_swagger.swagger: documentation-markup dispatch and the two
      metadata decorators

    A shallow embedding of [src/tornado_swagger/swagger.py] (Python 2, the
    only interpreter epydoc runs on) and the properties of its tag
    handlers, of [model] and of [operation].

    Conventions of the embedding.
    - A Python value that the code stores in a descriptor is a [pyvalue];
      [None] is [PyNone].
    - The small dictionaries with a fixed set of literal keys (a parameter
      entry, a property entry, a response message) are records whose
      fields are [option pyvalue]: [None] means that the key is absent.
    - [collections.OrderedDict] is an insertion-ordered association list.
    - Methods that mutate [self] are functions from the instance to the
      instance; the decorators, which also raise and append to the
      process-wide registry, run in a state-and-exception monad in which a
      raised exception keeps the mutations made before it. *)

From Stdlib Require Import String Ascii List Bool Arith ZArith Lia.
Import ListNotations.
Open Scope string_scope.
Open Scope list_scope.

Set Implicit Arguments.

(** ** Python values *)

Inductive pyvalue : Type :=
| PyNone
| PyBool (b : bool)
| PyInt (n : Z)
| PyStr (s : string).

(** [bool(v)] *)
Definition truthy (v : pyvalue) : bool :=
  match v with
  | PyNone => false
  | PyBool b => b
  | PyInt n => negb (Z.eqb n 0)
  | PyStr s => negb (String.eqb s "")
  end.

(** A tag argument as [field.arg()] gives it: a string or [None]. *)
Definition of_arg (arg : option string) : pyvalue :=
  match arg with
  | Some a => PyStr a
  | None => PyNone
  end.

(** [if arg:] on a tag argument. *)
Definition arg_truthy (arg : option string) : bool := truthy (of_arg arg).

Definition arg_eq_dec : forall a b : option string, {a = b} + {a <> b}.
Proof. decide equality. apply string_dec. Defined.
Arguments arg_eq_dec : simpl never.

(** ** [str.strip()] and [str.replace('\n', ' ')] on byte strings *)

Definition is_space (c : ascii) : bool :=
  let n := nat_of_ascii c in
  orb (Nat.eqb n 32) (andb (Nat.leb 9 n) (Nat.leb n 13)).

Fixpoint lstrip (s : string) : string :=
  match s with
  | EmptyString => EmptyString
  | String c s' => if is_space c then lstrip s' else s
  end.

Fixpoint rev_string (acc s : string) : string :=
  match s with
  | EmptyString => acc
  | String c s' => rev_string (String c acc) s'
  end.

Definition rstrip (s : string) : string :=
  rev_string EmptyString (lstrip (rev_string EmptyString s)).

Definition strip (s : string) : string := rstrip (lstrip s).

Fixpoint replace_newlines (s : string) : string :=
  match s with
  | EmptyString => EmptyString
  | String c s' =>
      String (if Nat.eqb (nat_of_ascii c) 10 then " "%char else c)
             (replace_newlines s')
  end.

(** ** collections.OrderedDict *)

Module OrderedDict.
Section Dict.
Variables K V : Type.
Variable eq_dec : forall a b : K, {a = b} + {a <> b}.

Definition t := list (K * V).

Definition empty : t := [].

(** [d.get(k)] *)
Fixpoint get (k : K) (d : t) : option V :=
  match d with
  | [] => None
  | (k', v) :: d' => if eq_dec k k' then Some v else get k d'
  end.

(** [d[k] = v]: an existing key keeps its position, a new key goes last. *)
Fixpoint set (k : K) (v : V) (d : t) : t :=
  match d with
  | [] => [(k, v)]
  | (k', v') :: d' =>
      if eq_dec k k' then (k', v) :: d' else (k', v') :: set k v d'
  end.

(** [d.setdefault(k, v)]: the dictionary afterwards. *)
Definition setdefault (k : K) (v : V) (d : t) : t :=
  match get k d with
  | Some _ => d
  | None => set k v d
  end.

(** [d.setdefault(k, v).update(...)]: the entry under [k] (created as [v]
    when missing) is mutated in place by [upd]. *)
Definition setdefault_update (k : K) (v : V) (upd : V -> V) (d : t) : t :=
  match get k d with
  | Some e => set k (upd e) d
  | None => set k (upd v) d
  end.

Definition keys (d : t) : list K := map fst d.

End Dict.
End OrderedDict.

(** ** The markup node of a field body

    [epydoc] hands each field body over as a [ParsedDocstring].  The code
    looks at it in two ways: [body.to_plaintext(None)], and [str(body)] fed
    to an [HTMLParser], which answers with a sequence of handler calls. *)

Inductive html_event : Type :=
| StartTag (tag : string) (attr : list (string * string))
| EndTag (tag : string)
| Data (data : string).

Record ParsedDocstring : Type := {
  to_plaintext : string;           (* body.to_plaintext(None) *)
  markup : list html_event         (* the calls HTMLParser.feed(str(body)) makes *)
}.

Module Field.
Record t : Type := {
  tag : string;                    (* field.tag() *)
  arg : option string;             (* field.arg() *)
  body : option ParsedDocstring    (* field.body() *)
}.
End Field.

(** The fields [doc.split_fields(errors)] yields for a documentation text. *)
Definition docstring := list Field.t.

(** ** class EpytextParser(HTMLParser) *)

Module EpytextParser.

Record t : Type := {
  tag : string;
  a_text : bool;
  data : pyvalue
}.

Definition __init__ (tag : string) : t :=
  {| tag := tag; a_text := false; data := PyNone |}.

Definition handle_starttag (tag' : string) (attr : list (string * string))
           (self : t) : t :=
  if String.eqb tag' (tag self)
  then {| tag := tag self; a_text := true; data := data self |}
  else self.

Definition handle_endtag (tag' : string) (self : t) : t :=
  if String.eqb tag' (tag self)
  then {| tag := tag self; a_text := false; data := data self |}
  else self.

Definition handle_data (d : string) (self : t) : t :=
  if a_text self
  then {| tag := tag self; a_text := a_text self; data := PyStr d |}
  else self.

Definition handle (self : t) (e : html_event) : t :=
  match e with
  | StartTag tg attr => handle_starttag tg attr self
  | EndTag tg => handle_endtag tg self
  | Data d => handle_data d self
  end.

(** [feed]: the base class calls the handlers in document order. *)
Definition feed (events : list html_event) (self : t) : t :=
  fold_left handle events self.

Definition get_data (self : t) : pyvalue := data self.

End EpytextParser.

(** ** The dictionaries stored in the accumulator *)

(** [a == b] on the values at hand ([True == 1] and [False == 0] in Python). *)
Definition py_eq (a b : pyvalue) : bool :=
  match a, b with
  | PyNone, PyNone => true
  | PyBool x, PyBool y => Bool.eqb x y
  | PyInt x, PyInt y => Z.eqb x y
  | PyBool x, PyInt y => Z.eqb (Z.b2z x) y
  | PyInt x, PyBool y => Z.eqb x (Z.b2z y)
  | PyStr x, PyStr y => String.eqb x y
  | _, _ => false
  end.

(** [a in l] *)
Definition py_in (a : pyvalue) (l : list pyvalue) : bool :=
  existsb (py_eq a) l.

(** An entry of [self.params]: keys [name], [description], [dataType],
    [paramType], [required]. *)
Module Param.
Record t : Type := {
  name : option pyvalue;
  description : option pyvalue;
  dataType : option pyvalue;
  paramType : option pyvalue;
  required : option pyvalue
}.

(** [{}] *)
Definition empty : t :=
  {| name := None; description := None; dataType := None;
     paramType := None; required := None |}.
End Param.

(** An entry of [self.properties]: keys [type], [description], [default],
    [items]; the value under [items] is the dictionary [{'type': v}], kept
    as its one value [v]. *)
Module Property.
Record t : Type := {
  type : option pyvalue;
  description : option pyvalue;
  default : option pyvalue;
  items : option pyvalue
}.

(** [{}] *)
Definition empty : t :=
  {| type := None; description := None; default := None; items := None |}.
End Property.

(** An element of [self.responseMessages]: keys [code], [message],
    [responseModel]. *)
Module Response.
Record t : Type := {
  code : option pyvalue;
  message : option pyvalue;
  responseModel : option pyvalue
}.
End Response.

(** ** class DocParser *)

Module DocParser.

Record t : Type := {
  notes : pyvalue;
  summary : pyvalue;
  responseClasses : OrderedDict.t (option string) pyvalue;
  responseMessages : list Response.t;
  params : OrderedDict.t (option string) Param.t;
  properties : OrderedDict.t (option string) Property.t
}.

Definition __init__ : t :=
  {| notes := PyNone;
     summary := PyNone;
     responseClasses := OrderedDict.empty _ _;
     responseMessages := [];
     params := OrderedDict.empty _ _;
     properties := OrderedDict.empty _ _ |}.

Definition with_notes (v : pyvalue) (self : t) : t :=
  {| notes := v; summary := summary self;
     responseClasses := responseClasses self;
     responseMessages := responseMessages self;
     params := params self; properties := properties self |}.

Definition with_summary (v : pyvalue) (self : t) : t :=
  {| notes := notes self; summary := v;
     responseClasses := responseClasses self;
     responseMessages := responseMessages self;
     params := params self; properties := properties self |}.

Definition with_responseClasses (d : OrderedDict.t (option string) pyvalue)
           (self : t) : t :=
  {| notes := notes self; summary := summary self;
     responseClasses := d;
     responseMessages := responseMessages self;
     params := params self; properties := properties self |}.

Definition with_responseMessages (l : list Response.t) (self : t) : t :=
  {| notes := notes self; summary := summary self;
     responseClasses := responseClasses self;
     responseMessages := l;
     params := params self; properties := properties self |}.

Definition with_params (d : OrderedDict.t (option string) Param.t)
           (self : t) : t :=
  {| notes := notes self; summary := summary self;
     responseClasses := responseClasses self;
     responseMessages := responseMessages self;
     params := d; properties := properties self |}.

Definition with_properties (d : OrderedDict.t (option string) Property.t)
           (self : t) : t :=
  {| notes := notes self; summary := summary self;
     responseClasses := responseClasses self;
     responseMessages := responseMessages self;
     params := params self; properties := d |}.

(** [comment.replace('\n', ' ') if comment else comment] *)
Definition _sanitize_doc (comment : pyvalue) : pyvalue :=
  if truthy comment
  then match comment with
       | PyStr s => PyStr (replace_newlines s)
       | _ => comment
       end
  else comment.

(** [body.to_plaintext(None).strip() if body else body]; a markup node is
    an object without [__len__] or [__nonzero__], hence true. *)
Definition _get_body (body : option ParsedDocstring) : pyvalue :=
  match body with
  | Some b => PyStr (strip (to_plaintext b))
  | None => PyNone
  end.

(** [_parse_epytext(tag, body) if body else body] *)
Definition _parse_epytext_para (tag : string) (body : option ParsedDocstring)
  : pyvalue :=
  match body with
  | Some b =>
      EpytextParser.get_data
        (EpytextParser.feed (markup b) (EpytextParser.__init__ tag))
  | None => PyNone
  end.

Definition _parse_param (arg : option string) (body : option ParsedDocstring)
           (self : t) : t :=
  let body := _get_body body in
  let self :=
    with_params
      (OrderedDict.setdefault_update arg_eq_dec arg Param.empty
         (fun e => {| Param.name := Some (of_arg arg);
                      Param.description := Some body;
                      Param.dataType := Param.dataType e;
                      Param.paramType := Param.paramType e;
                      Param.required := Param.required e |})
         (params self)) self in
  match OrderedDict.get arg_eq_dec arg (params self) with
  | Some e =>
      match Param.paramType e with
      | None =>
          with_params
            (OrderedDict.set arg_eq_dec arg
               {| Param.name := Param.name e;
                  Param.description := Param.description e;
                  Param.dataType := Param.dataType e;
                  Param.paramType := Some (PyStr "query");
                  Param.required := Param.required e |}
               (params self)) self
      | Some _ => self
      end
  | None => self   (* not reached: the entry was just stored *)
  end.

Definition _parse_type (arg : option string) (body : option ParsedDocstring)
           (self : t) : t :=
  let body := _get_body body in
  with_params
    (OrderedDict.setdefault_update arg_eq_dec arg Param.empty
       (fun e => {| Param.name := Some (of_arg arg);
                    Param.description := Param.description e;
                    Param.dataType := Some body;
                    Param.paramType := Param.paramType e;
                    Param.required := Param.required e |})
       (params self)) self.

Definition _parse_in (arg : option string) (body : option ParsedDocstring)
           (self : t) : t :=
  let body := _get_body body in
  with_params
    (OrderedDict.setdefault_update arg_eq_dec arg Param.empty
       (fun e => {| Param.name := Some (of_arg arg);
                    Param.description := Param.description e;
                    Param.dataType := Param.dataType e;
                    Param.paramType := Some body;
                    Param.required := Param.required e |})
       (params self)) self.

Definition _parse_required (arg : option string)
           (body : option ParsedDocstring) (self : t) : t :=
  let body := _get_body body in
  with_params
    (OrderedDict.setdefault_update arg_eq_dec arg Param.empty
       (fun e => {| Param.name := Some (of_arg arg);
                    Param.description := Param.description e;
                    Param.dataType := Param.dataType e;
                    Param.paramType := Param.paramType e;
                    Param.required :=
                      Some (PyBool
                              (if py_in body [PyStr "False"; PyStr "false"]
                               then false else true)) |})
       (params self)) self.

Definition _parse_rtype (arg : option string) (body : option ParsedDocstring)
           (self : t) : t :=
  let body := _get_body body in
  if arg_truthy arg
  then with_responseClasses
         (OrderedDict.set arg_eq_dec arg body (responseClasses self)) self
  else self.

Definition _parse_property (arg : option string)
           (body : option ParsedDocstring) (self : t) : t :=
  with_properties
    (OrderedDict.setdefault_update arg_eq_dec arg Property.empty
       (fun e => {| Property.type := Property.type e;
                    Property.description := Some (_get_body body);
                    Property.default := Property.default e;
                    Property.items := Property.items e |})
       (properties self)) self.

Definition _parse_ptype (arg : option string) (body : option ParsedDocstring)
           (self : t) : t :=
  let code := _parse_epytext_para "code" body in
  let link := _parse_epytext_para "link" body in
  let body := _get_body body in
  match code with
  | PyNone =>
      with_properties
        (OrderedDict.setdefault_update arg_eq_dec arg Property.empty
           (fun e => {| Property.type := Some body;
                        Property.description := Property.description e;
                        Property.default := Property.default e;
                        Property.items := Property.items e |})
           (properties self)) self
  | _ =>
      if py_eq code (PyStr "list")
      then with_properties
             (OrderedDict.setdefault_update arg_eq_dec arg Property.empty
                (fun e => {| Property.type := Some (PyStr "array");
                             Property.description := Property.description e;
                             Property.default := Property.default e;
                             Property.items := Some link |})
                (properties self)) self
      else self
  end.

Definition _parse_return (arg : option string) (body : option ParsedDocstring)
           (self : t) : t :=
  let body := _get_body body in
  let response_class := OrderedDict.get arg_eq_dec arg (responseClasses self) in
  let response_message :=
    {| Response.code := Some (of_arg arg);
       Response.message := Some body;
       Response.responseModel :=
         match response_class with
         | Some c => if truthy c then Some c else None
         | None => None
         end |} in
  with_responseMessages (responseMessages self ++ [response_message]) self.

Definition _parse_notes (arg : option string) (body : option ParsedDocstring)
           (self : t) : t :=
  with_notes (_sanitize_doc (_get_body body)) self.

Definition _parse_description (arg : option string)
           (body : option ParsedDocstring) (self : t) : t :=
  with_summary (_sanitize_doc (_get_body body)) self.

Definition _not_supported (arg : option string)
           (body : option ParsedDocstring) (self : t) : t := self.

(** The dictionary of bound methods, looked up with [_not_supported] as the
    default. *)
Definition _get_parser (tag : string)
  : option string -> option ParsedDocstring -> t -> t :=
  if String.eqb tag "param" then _parse_param
  else if String.eqb tag "type" then _parse_type
  else if String.eqb tag "in" then _parse_in
  else if String.eqb tag "required" then _parse_required
  else if String.eqb tag "rtype" then _parse_rtype
  else if String.eqb tag "property" then _parse_property
  else if String.eqb tag "ptype" then _parse_ptype
  else if String.eqb tag "return" then _parse_return
  else if String.eqb tag "raise" then _parse_return
  else if String.eqb tag "notes" then _parse_notes
  else if String.eqb tag "description" then _parse_description
  else _not_supported.

(** One turn of the loop of [parse_docstring]. *)
Definition dispatch (self : t) (field : Field.t) : t :=
  _get_parser (Field.tag field) (Field.arg field) (Field.body field) self.

(** [parse_docstring(text)]: [text] is [None] or a text whose fields epydoc
    has split. *)
Definition parse_docstring (text : option docstring) (self : t) : t :=
  match text with
  | None => self
  | Some fields => fold_left dispatch fields self
  end.

End DocParser.

(** ** Python objects handed to the decorators *)

(** [inspect.getargspec(f)]: the positional parameter names and the tuple
    of default values ([None] when there is none). *)
Module ArgSpec.
Record t : Type := {
  args : list string;
  defaults : option (list pyvalue)
}.
End ArgSpec.

(** A function object.  [fn_argspec] is [None] for a callable that
    [inspect.getargspec] refuses with [TypeError] (a built-in, a slot
    wrapper such as [object.__init__]). *)
Record pyfunction : Type := {
  fn_name : string;
  fn_argspec : option ArgSpec.t;
  fn_doc : option docstring
}.

(** A class object.  [cls_init] is [None] when ['__init__'] is not in
    [dir(cls)]. *)
Record pyclass : Type := {
  cls_name : string;
  cls_init : option pyfunction;
  cls_doc : option docstring
}.

(** The objects that reach [__call__].  [ObjWrapper f] is the closure
    [__wrapper__] that the [operation] instance under study built around
    [f]. *)
Inductive pyobj : Type :=
| ObjValue (v : pyvalue)
| ObjFunction (f : pyfunction)
| ObjClass (c : pyclass)
| ObjWrapper (wrapped : pyobj).

(** [bool(o)]: functions and classes are true. *)
Definition obj_truthy (o : pyobj) : bool :=
  match o with
  | ObjValue v => truthy v
  | _ => true
  end.

(** [o.__name__]; [None] stands for [AttributeError].  [functools.wraps]
    copies the name and the documentation of the wrapped function. *)
Fixpoint getattr_name (o : pyobj) : option string :=
  match o with
  | ObjValue _ => None
  | ObjFunction f => Some (fn_name f)
  | ObjClass c => Some (cls_name c)
  | ObjWrapper w => getattr_name w
  end.

(** [inspect.getargspec(o)]; [None] stands for [TypeError].  The wrapper
    takes star arguments only, so its list of named parameters is empty. *)
Definition getargspec (o : pyobj) : option ArgSpec.t :=
  match o with
  | ObjFunction f => fn_argspec f
  | ObjWrapper _ => Some {| ArgSpec.args := []; ArgSpec.defaults := None |}
  | _ => None
  end.

(** [inspect.getdoc(o)] *)
Fixpoint getdoc (o : pyobj) : option docstring :=
  match o with
  | ObjValue _ => None
  | ObjFunction f => fn_doc f
  | ObjClass c => cls_doc c
  | ObjWrapper w => getdoc w
  end.

(** What [cls.__init__] is on an object without a constructor written in
    Python. *)
Definition slot_wrapper : pyfunction :=
  {| fn_name := "__init__"; fn_argspec := None; fn_doc := None |}.

(** [o.__init__ if '__init__' in dir(o)] *)
Definition getattr_init (o : pyobj) : option pyobj :=
  match o with
  | ObjClass c => option_map ObjFunction (cls_init c)
  | _ => Some (ObjFunction slot_wrapper)
  end.

(** Positional and keyword arguments of a call. *)
Record callargs : Type := {
  pos : list pyobj;
  kw : list (string * pyobj)
}.

(** [argspec.defaults] is a tuple or [None]; both [None] and the empty
    tuple are false in [if argspec.defaults:]. *)
Definition tuple_or_empty (d : option (list pyvalue)) : list pyvalue :=
  match d with
  | Some ds => ds
  | None => []
  end.

(** [l[-k:]] for a length [k] *)
Definition slice_last {A : Type} (k : nat) (l : list A) : list A :=
  if Nat.eqb k 0 then l else skipn (length l - k) l.

(** [l.remove(x)]: drops the first [x]; [None] stands for [ValueError]. *)
Fixpoint list_remove (x : string) (l : list string) : option (list string) :=
  match l with
  | [] => None
  | y :: l' =>
      if String.eqb y x then Some l'
      else option_map (cons y) (list_remove x l')
  end.

(** [x in l] on names *)
Definition name_in (x : string) (l : list string) : bool :=
  existsb (String.eqb x) l.

(** ** State and exceptions *)

Inductive exn : Type :=
| IndexError
| AttributeError
| TypeError
| ValueError
| RuntimeError
| Exception (msg : string).

Inductive result (A : Type) : Type :=
| Ok (a : A)
| Raise (e : exn).
Arguments Raise {A} e.

(** A computation over a state [S]; an exception leaves the state as it is
    at the raise. *)
Definition M (S A : Type) : Type := S -> result A * S.

Definition ret {S A : Type} (a : A) : M S A := fun s => (Ok a, s).

Definition bind {S A B : Type} (m : M S A) (k : A -> M S B) : M S B :=
  fun s =>
    match m s with
    | (Ok a, s') => k a s'
    | (Raise e, s') => (Raise e, s')
    end.

Definition raise {S A : Type} (e : exn) : M S A := fun s => (Raise e, s).

Definition gets {S A : Type} (f : S -> A) : M S A := fun s => (Ok (f s), s).

Definition modify {S : Type} (f : S -> S) : M S unit := fun s => (Ok tt, f s).

Definition lift_result {S A : Type} (r : result A) : M S A := fun s => (r, s).

Definition lift_option {S A : Type} (e : exn) (o : option A) : M S A :=
  match o with
  | Some a => ret a
  | None => raise e
  end.

Declare Scope py_scope.
Delimit Scope py_scope with py.
Notation "x <- c1 ;; c2" := (bind c1 (fun x => c2))
  (at level 61, c1 at next level, right associativity) : py_scope.
Notation "c1 ;;; c2" := (bind c1 (fun _ => c2))
  (at level 61, right associativity) : py_scope.
Open Scope py_scope.

(** ** class model(DocParser) *)

Module model.

(** The instance: the inherited accumulator and the attributes of
    [__init__]; [id] is set by [_parse_model]. *)
Record t : Type := {
  doc : DocParser.t;
  args : list pyobj;
  kwargs : list (string * pyobj);
  required : list string;
  cls : option pyobj;
  id : option string
}.

Definition __init__ (args : list pyobj) (kwargs : list (string * pyobj)) : t :=
  {| doc := DocParser.__init__; args := args; kwargs := kwargs;
     required := []; cls := None; id := None |}.

Definition with_doc (f : DocParser.t -> DocParser.t) (self : t) : t :=
  {| doc := f (doc self); args := args self; kwargs := kwargs self;
     required := required self; cls := cls self; id := id self |}.

Definition with_required (l : list string) (self : t) : t :=
  {| doc := doc self; args := args self; kwargs := kwargs self;
     required := l; cls := cls self; id := id self |}.

Definition with_cls (c : pyobj) (self : t) : t :=
  {| doc := doc self; args := args self; kwargs := kwargs self;
     required := required self; cls := Some c; id := id self |}.

Definition with_id (n : string) (self : t) : t :=
  {| doc := doc self; args := args self; kwargs := kwargs self;
     required := required self; cls := cls self; id := Some n |}.

(** The instance together with the list [models] of the settings module,
    to which instances are appended. *)
Record state : Type := {
  self : t;
  models : list t
}.

Definition on_self (f : t -> t) : M state unit :=
  modify (fun s => {| self := f (self s); models := models s |}).

(** [models.append(self)] *)
Definition models_append : M state unit :=
  modify (fun s => {| self := self s; models := models s ++ [self s] |}).

(** The body of the first loop of [_parse_args]. *)
Definition add_required (self : t) (arg : string) : t :=
  with_doc
    (fun d =>
       DocParser.with_properties
         (OrderedDict.setdefault arg_eq_dec (Some arg)
            {| Property.type := Some (PyStr "string");
               Property.description := None;
               Property.default := None;
               Property.items := None |}
            (DocParser.properties d)) d)
    (with_required (required self ++ [arg]) self).

(** The body of the second loop of [_parse_args]. *)
Definition add_default (self : t) (p : string * pyvalue) : t :=
  with_doc
    (fun d =>
       DocParser.with_properties
         (OrderedDict.setdefault arg_eq_dec (Some (fst p))
            {| Property.type := Some (PyStr "string");
               Property.description := None;
               Property.default := Some (snd p);
               Property.items := None |}
            (DocParser.properties d)) d)
    self.

Definition _parse_args (func : pyobj) : M state unit :=
  argspec <- lift_option TypeError (getargspec func) ;;
  args <- lift_option ValueError (list_remove "self" (ArgSpec.args argspec)) ;;
  let ds := tuple_or_empty (ArgSpec.defaults argspec) in
  let defaults :=
    match ds with
    | [] => []
    | _ :: _ => combine (slice_last (length ds) args) ds
    end in
  let required_args_count := length args - length defaults in
  on_self (fun self => fold_left add_required (firstn required_args_count args) self) ;;;
  on_self (fun self => fold_left add_default defaults self).

Definition _parse_model (cls : pyobj) : M state unit :=
  name <- lift_option AttributeError (getattr_name cls) ;;
  on_self (with_id name) ;;;
  on_self (with_cls cls) ;;;
  match getattr_init cls with
  | Some init => _parse_args init
  | None => ret tt
  end ;;;
  on_self (with_doc (DocParser.parse_docstring (getdoc cls))) ;;;
  models_append.

Definition __call__ (a : callargs) : M state pyobj :=
  c <- gets (fun s => cls (self s)) ;;
  match c with
  | Some c0 =>
      if obj_truthy c0 then ret c0
      else
        match pos a with
        | [] => raise IndexError
        | cls :: _ => _parse_model cls ;;; ret cls
        end
  | None =>
      match pos a with
      | [] => raise IndexError
      | cls :: _ => _parse_model cls ;;; ret cls
      end
  end.

(** A run of calls on the decorator, one after the other, whatever each
    returns or raises. *)
Definition call_many (l : list callargs) (s : state) : state :=
  fold_left (fun s a => snd (__call__ a s)) l s.

End model.

(** ** class operation(DocParser) *)

Module operation.

(** The instance: the inherited accumulator and the attributes of
    [__init__]; [__name__] is set by [_parse_operation]. *)
Record t : Type := {
  doc : DocParser.t;
  nickname : pyvalue;
  func : option pyobj;
  func_args : list string;
  kwds : list (string * pyobj);
  __name__ : option string
}.

Definition __init__ (nickname : pyvalue) (kwds : list (string * pyobj)) : t :=
  {| doc := DocParser.__init__; nickname := nickname; func := None;
     func_args := []; kwds := kwds; __name__ := None |}.

Definition with_doc (f : DocParser.t -> DocParser.t) (self : t) : t :=
  {| doc := f (doc self); nickname := nickname self; func := func self;
     func_args := func_args self; kwds := kwds self;
     __name__ := __name__ self |}.

Definition with_func (o : pyobj) (self : t) : t :=
  {| doc := doc self; nickname := nickname self; func := Some o;
     func_args := func_args self; kwds := kwds self;
     __name__ := __name__ self |}.

Definition with_func_args (l : list string) (self : t) : t :=
  {| doc := doc self; nickname := nickname self; func := func self;
     func_args := l; kwds := kwds self; __name__ := __name__ self |}.

Definition with_name (n : string) (self : t) : t :=
  {| doc := doc self; nickname := nickname self; func := func self;
     func_args := func_args self; kwds := kwds self; __name__ := Some n |}.

(** The calls into the [inspect] module, kept in the order they are made. *)
Inductive extcall : Type :=
| GetArgSpec (o : pyobj)
| GetDoc (o : pyobj).

Record state : Type := {
  self : t;
  calls : list extcall
}.

Definition on_self (f : t -> t) : M state unit :=
  modify (fun s => {| self := f (self s); calls := calls s |}).

Definition record_call (c : extcall) : M state unit :=
  modify (fun s => {| self := self s; calls := calls s ++ [c] |}).

(** The body of the loop of [_parse_args]. *)
Definition add_param (defaults : list string) (self : t) (arg : string) : t :=
  let required := if name_in arg defaults then false else true in
  with_doc
    (fun d =>
       DocParser.with_params
         (OrderedDict.setdefault arg_eq_dec (Some arg)
            {| Param.name := Some (PyStr arg);
               Param.description := None;
               Param.dataType := Some (PyStr "string");
               Param.paramType := Some (PyStr "path");
               Param.required := Some (PyBool required) |}
            (DocParser.params d)) d)
    self.

Definition _parse_args (func : pyobj) : M state unit :=
  record_call (GetArgSpec func) ;;;
  argspec <- lift_option TypeError (getargspec func) ;;
  let args :=
    if name_in "self" (ArgSpec.args argspec)
    then match list_remove "self" (ArgSpec.args argspec) with
         | Some l => l
         | None => ArgSpec.args argspec
         end
    else ArgSpec.args argspec in
  let ds := tuple_or_empty (ArgSpec.defaults argspec) in
  let defaults :=
    match ds with
    | [] => []
    | _ :: _ => slice_last (length ds) args
    end in
  on_self (fun self => fold_left (add_param defaults) args self) ;;;
  on_self (with_func_args args).

Definition _parse_operation (func : pyobj) : M state unit :=
  on_self (with_func func) ;;;
  name <- lift_option AttributeError (getattr_name func) ;;
  on_self (with_name name) ;;;
  _parse_args func ;;;
  record_call (GetDoc func) ;;;
  on_self (with_doc (DocParser.parse_docstring (getdoc func))).

Section Calls.

(** What the interpreter answers when it calls an object that is not the
    wrapper of this instance: the value returned or the exception raised.
    The called code does not reach back into the instance. *)
Variable run : pyobj -> callargs -> result pyobj.

(** The call of [self.func] on the arguments.  [None] is not callable; a wrapper of this
    instance stored as its own [func] would call itself without end, which
    the interpreter stops with [RuntimeError]. *)
Definition call_func (self : t) (a : callargs) : result pyobj :=
  match func self with
  | None => Raise TypeError
  | Some (ObjWrapper _) => Raise RuntimeError
  | Some o => run o a
  end.

(** [if self.func:] *)
Definition built (self : t) : bool :=
  match func self with
  | Some o => obj_truthy o
  | None => false
  end.

Definition __call__ (a : callargs) : M state pyobj :=
  self0 <- gets self ;;
  if built self0
  then lift_result (call_func self0 a)
  else
    match pos a with
    | [] => raise IndexError
    | func :: _ => _parse_operation func ;;; ret (ObjWrapper func)
    end.

(** The closure returned by [__call__]: it reads [self.func] when called. *)
Definition __wrapper__ (in_args : callargs) : M state pyobj :=
  self0 <- gets self ;;
  lift_result (call_func self0 in_args).

(** [__wrapper__.rest_api]: the instance itself. *)
Definition rest_api : M state t := gets self.

(** A run of calls on the decorator, one after the other, whatever each
    returns or raises. *)
Definition call_many (l : list callargs) (s : state) : state :=
  fold_left (fun s a => snd (__call__ a s)) l s.

End Calls.

End operation.

(** ** Notions used to state the properties *)

(** *** Inline elements of a body *)

Definition is_start (t : string) (e : html_event) : bool :=
  match e with
  | StartTag tg _ => String.eqb tg t
  | _ => false
  end.

Definition is_end (t : string) (e : html_event) : bool :=
  match e with
  | EndTag tg => String.eqb tg t
  | _ => false
  end.

(** No element [t] opens in [l]. *)
Definition no_start (t : string) (l : list html_event) : bool :=
  forallb (fun e => negb (is_start t e)) l.

(** No element [t] opens or closes in [l]. *)
Definition no_tag (t : string) (l : list html_event) : bool :=
  forallb (fun e => negb (is_start t e || is_end t e)) l.

(** The last chunk of text of [l], [acc] when it has none. *)
Fixpoint last_data_from (acc : option string) (l : list html_event)
  : option string :=
  match l with
  | [] => acc
  | Data d :: l' => last_data_from (Some d) l'
  | _ :: l' => last_data_from acc l'
  end.

Definition last_data (l : list html_event) : option string :=
  last_data_from None l.

(** Every chunk of text of [l] is [w], and there is one. *)
Definition text_is (w : string) (l : list html_event) : bool :=
  match last_data l with
  | Some _ =>
      forallb (fun e => match e with
                        | Data d => String.eqb d w
                        | _ => true
                        end) l
  | None => false
  end.

(** The body has an inline element [t] whose text is [w]. *)
Definition contains_span (t w : string) (evs : list html_event) : Prop :=
  exists pre attr inner post,
    evs = pre ++ StartTag t attr :: inner ++ EndTag t :: post /\
    no_tag t inner = true /\
    text_is w inner = true.

(** The last inline element [t] of the body ends its text with [w]. *)
Definition last_span (t w : string) (evs : list html_event) : Prop :=
  exists pre attr inner post,
    evs = pre ++ StartTag t attr :: inner ++ EndTag t :: post /\
    no_tag t inner = true /\
    last_data inner = Some w /\
    no_start t post = true.

(** *** Response classes recorded by a run of fields *)

(** The field is an [rtype] that records its body under [c]: its argument
    is [c], and is not empty. *)
Definition records_rtype (c : option string) (f : Field.t) : bool :=
  String.eqb (Field.tag f) "rtype" && arg_truthy (Field.arg f)
  && (if arg_eq_dec c (Field.arg f) then true else false).

(** The body recorded under [c] once [fields] are dispatched in order on an
    accumulator that held [acc] there: the one of the last [rtype] field
    for [c]. *)
Fixpoint recorded_rtype_from (acc : option pyvalue) (c : option string)
         (fields : list Field.t) : option pyvalue :=
  match fields with
  | [] => acc
  | f :: fields' =>
      recorded_rtype_from
        (if records_rtype c f
         then Some (DocParser._get_body (Field.body f))
         else acc)
        c fields'
  end.

Definition recorded_rtype (c : option string) (fields : list Field.t)
  : option pyvalue :=
  recorded_rtype_from None c fields.

(** The [responseModel] that a recorded body gives: none when nothing is
    recorded or when the recorded body is false (empty). *)
Definition resolved_model (recorded : option pyvalue) : option pyvalue :=
  match recorded with
  | Some m => if truthy m then Some m else None
  | None => None
  end.

(** *** Seeds of the model properties *)

Definition required_seed : Property.t :=
  {| Property.type := Some (PyStr "string");
     Property.description := None;
     Property.default := None;
     Property.items := None |}.

Definition default_seed (v : pyvalue) : Property.t :=
  {| Property.type := Some (PyStr "string");
     Property.description := None;
     Property.default := Some v;
     Property.items := None |}.

(** The properties that a constructor [(self, a1..an, d1=v1..dk=vk)]
    seeds, in order. *)
Definition seeded_properties (req : list string) (dfl : list (string * pyvalue))
  : OrderedDict.t (option string) Property.t :=
  map (fun a => (Some a, required_seed)) req
  ++ map (fun p => (Some (fst p), default_seed (snd p))) dfl.

(** *** The split of a parameter list *)

(** The parameters without default, and the defaulted ones with their
    values, as [_parse_args] splits the list left by [remove]. *)
Definition split_defaults (args : list string) (spec : ArgSpec.t)
  : list string * list (string * pyvalue) :=
  let ds := tuple_or_empty (ArgSpec.defaults spec) in
  let defaults :=
    match ds with
    | [] => []
    | _ :: _ => combine (slice_last (length ds) args) ds
    end in
  (firstn (length args - length defaults) args, defaults).

(** The parameter names that [operation._parse_args] keeps, and those
    among them that have a default. *)
Definition operation_args (spec : ArgSpec.t) : list string :=
  if name_in "self" (ArgSpec.args spec)
  then match list_remove "self" (ArgSpec.args spec) with
       | Some l => l
       | None => ArgSpec.args spec
       end
  else ArgSpec.args spec.

Definition operation_defaults (spec : ArgSpec.t) : list string :=
  let ds := tuple_or_empty (ArgSpec.defaults spec) in
  match ds with
  | [] => []
  | _ :: _ => slice_last (length ds) (operation_args spec)
  end.

(** *** Failure of the introspection of a constructor *)

(** The exception with which [model._parse_args] leaves, if any:
    [TypeError] when [inspect.getargspec] refuses the constructor,
    [ValueError] when no parameter is called [self]. *)
Definition introspection_error (init : pyfunction) : option exn :=
  match fn_argspec init with
  | None => Some TypeError
  | Some spec =>
      match list_remove "self" (ArgSpec.args spec) with
      | None => Some ValueError
      | Some _ => None
      end
  end.

(** A new [model] instance next to a registry. *)
Definition new_model (args : list pyobj) (kwargs : list (string * pyobj))
           (registry : list model.t) : model.state :=
  {| model.self := model.__init__ args kwargs; model.models := registry |}.

(** A new [operation] instance, no call into [inspect] made yet. *)
Definition new_operation (nickname : pyvalue) (kwds : list (string * pyobj))
  : operation.state :=
  {| operation.self := operation.__init__ nickname kwds;
     operation.calls := [] |}.

(** One positional argument. *)
Definition call_with (o : pyobj) : callargs := {| pos := [o]; kw := [] |}.

(** *** Times the signature was read *)

Definition is_getargspec (c : operation.extcall) : bool :=
  match c with
  | operation.GetArgSpec _ => true
  | operation.GetDoc _ => false
  end.

Definition parse_count (calls : list operation.extcall) : nat :=
  length (filter is_getargspec calls).

(** *** Sample inputs *)

(** A body of plain text, as epydoc renders it. *)
Definition plain (text : string) : ParsedDocstring :=
  {| to_plaintext := text;
     markup := [StartTag "epytext" []; StartTag "para" [("inline", "True")];
                Data text; EndTag "para"; EndTag "epytext"] |}.

(** [C{list} of L{Widget}] *)
Definition body_list_of_widget : ParsedDocstring :=
  {| to_plaintext := "list of Widget";
     markup := [StartTag "epytext" []; StartTag "para" [("inline", "True")];
                StartTag "code" []; Data "list"; EndTag "code";
                Data " of ";
                StartTag "link" [];
                StartTag "name" []; Data "Widget"; EndTag "name";
                StartTag "target" []; Data "Widget"; EndTag "target";
                EndTag "link";
                EndTag "para"; EndTag "epytext"] |}.


(** [C{tuple} or C{list} of L{Widget}] *)
Definition body_tuple_or_list : ParsedDocstring :=
  {| to_plaintext := "tuple or list of Widget";
     markup := [StartTag "epytext" []; StartTag "para" [("inline", "True")];
                StartTag "code" []; Data "tuple"; EndTag "code";
                Data " or ";
                StartTag "code" []; Data "list"; EndTag "code";
                Data " of ";
                StartTag "link" [];
                StartTag "name" []; Data "Widget"; EndTag "name";
                StartTag "target" []; Data "Widget"; EndTag "target";
                EndTag "link";
                EndTag "para"; EndTag "epytext"] |}.

(** [C{dict}] *)
Definition body_dict : ParsedDocstring :=
  {| to_plaintext := "dict";
     markup := [StartTag "epytext" []; StartTag "para" [("inline", "True")];
                StartTag "code" []; Data "dict"; EndTag "code";
                EndTag "para"; EndTag "epytext"] |}.

Definition field (tag : string) (arg : string) (text : string) : Field.t :=
  {| Field.tag := tag; Field.arg := Some arg; Field.body := Some (plain text) |}.

(** [def __init__(self, a, b=5)] *)
Definition widget_init : pyfunction :=
  {| fn_name := "__init__";
     fn_argspec := Some {| ArgSpec.args := ["self"; "a"; "b"];
                           ArgSpec.defaults := Some [PyInt 5] |};
     fn_doc := None |}.

Definition widget_class : pyclass :=
  {| cls_name := "Widget"; cls_init := Some widget_init; cls_doc := None |}.

(** The same class, documented with [@ptype a: int] and
    [@property b: the b]. *)
Definition documented_widget_class : pyclass :=
  {| cls_name := "Widget"; cls_init := Some widget_init;
     cls_doc := Some [field "ptype" "a" " int "; field "property" "b" "the b
"] |}.

(** [def __init__(this, a)]: no parameter is called [self]. *)
Definition gadget_init : pyfunction :=
  {| fn_name := "__init__";
     fn_argspec := Some {| ArgSpec.args := ["this"; "a"];
                           ArgSpec.defaults := None |};
     fn_doc := None |}.

Definition gadget_class : pyclass :=
  {| cls_name := "Gadget"; cls_init := Some gadget_init; cls_doc := None |}.

(** [def ping(request): return None], documented with a [param] and a
    [return] field. *)
Definition ping : pyfunction :=
  {| fn_name := "ping";
     fn_argspec := Some {| ArgSpec.args := ["request"];
                           ArgSpec.defaults := None |};
     fn_doc := Some [field "param" "request" "the request";
                     field "return" "200" "OK"] |}.

(** What the interpreter answers for a function that returns [None]. *)
Definition returns_none (o : pyobj) (a : callargs) : result pyobj :=
  Ok (ObjValue PyNone).

(** The entry under [k], the empty dictionary when there is none: what
    [setdefault(k, {})] hands to [update]. *)
Definition param_entry (k : option string) (self : DocParser.t) : Param.t :=
  match OrderedDict.get arg_eq_dec k (DocParser.params self) with
  | Some e => e
  | None => Param.empty
  end.

Definition property_entry (k : option string) (self : DocParser.t)
  : Property.t :=
  match OrderedDict.get arg_eq_dec k (DocParser.properties self) with
  | Some e => e
  | None => Property.empty
  end.

(** The type of the bound methods that [_get_parser] returns. *)
Definition handler : Type :=
  option string -> option ParsedDocstring -> DocParser.t -> DocParser.t.

(** The tags with a handler of their own. *)
Definition known_tags : list string :=
  ["param"; "type"; "in"; "required"; "rtype"; "property"; "ptype";
   "return"; "raise"; "notes"; "description"].

(** *** Notions for the further properties *)

(** The handler calls that a parser for [t] reacts to: text, and the
    opening and closing of [t]. *)
Definition concerns (t : string) (e : html_event) : bool :=
  match e with
  | StartTag tg _ => String.eqb tg t
  | EndTag tg => String.eqb tg t
  | Data _ => true
  end.

(** No element [t] closes in [l]. *)
Definition no_end (t : string) (l : list html_event) : bool :=
  forallb (fun e => negb (is_end t e)) l.

(** The string has no line break. *)
Fixpoint no_newline (s : string) : bool :=
  match s with
  | EmptyString => true
  | String c s' => negb (Nat.eqb (nat_of_ascii c) 10) && no_newline s'
  end.

(** The field is handled by [_parse_return]. *)
Definition is_return_field (f : Field.t) : bool :=
  String.eqb (Field.tag f) "return" || String.eqb (Field.tag f) "raise".

(** The message that [_parse_return] builds for a field, its
    [responseModel] apart. *)
Definition code_and_message (f : Field.t) : option pyvalue * option pyvalue :=
  (Some (of_arg (Field.arg f)), Some (DocParser._get_body (Field.body f))).

Definition is_notes_field (f : Field.t) : bool :=
  String.eqb (Field.tag f) "notes".

Definition is_description_field (f : Field.t) : bool :=
  String.eqb (Field.tag f) "description".

(** The entry that [operation._parse_args] seeds for a parameter. *)
Definition path_seed (arg : string) (required : bool) : Param.t :=
  {| Param.name := Some (PyStr arg);
     Param.description := None;
     Param.dataType := Some (PyStr "string");
     Param.paramType := Some (PyStr "path");
     Param.required := Some (PyBool required) |}.

(** Every entry carries its key as [name]. *)
Definition names_match (d : OrderedDict.t (option string) Param.t) : Prop :=
  forall k e, OrderedDict.get arg_eq_dec k d = Some e ->
              Param.name e = Some (of_arg k).

(** A built-in function: [inspect.getargspec] refuses it. *)
Definition builtin_len : pyfunction :=
  {| fn_name := "len"; fn_argspec := None; fn_doc := None |}.

(** [def get(self, pet_id, verbose=False)], not documented. *)
Definition get_pet : pyfunction :=
  {| fn_name := "get";
     fn_argspec := Some {| ArgSpec.args := ["self"; "pet_id"; "verbose"];
                           ArgSpec.defaults := Some [PyBool false] |};
     fn_doc := None |}.

(** A class without [__init__] in its [dir]. *)
Definition plain_class : pyclass :=
  {| cls_name := "Plain"; cls_init := None; cls_doc := None |}.

(** The [code] and the [message] of a response message. *)
Definition response_pair (m : Response.t) : option pyvalue * option pyvalue :=
  (Response.code m, Response.message m).

(** [None], or a string without line break. *)
Definition one_line (v : pyvalue) : bool :=
  match v with
  | PyNone => true
  | PyStr s => no_newline s
  | _ => false
  end.

(** What each parameter tag stores in the entry it finds (the empty
    dictionary when the name is new). *)
Definition param_update (arg : option string) (body : pyvalue) (e : Param.t)
  : Param.t :=
  {| Param.name := Some (of_arg arg);
     Param.description := Some body;
     Param.dataType := Param.dataType e;
     Param.paramType := match Param.paramType e with
                        | Some t => Some t
                        | None => Some (PyStr "query")
                        end;
     Param.required := Param.required e |}.

Definition type_update (arg : option string) (body : pyvalue) (e : Param.t)
  : Param.t :=
  {| Param.name := Some (of_arg arg);
     Param.description := Param.description e;
     Param.dataType := Some body;
     Param.paramType := Param.paramType e;
     Param.required := Param.required e |}.

Definition in_update (arg : option string) (body : pyvalue) (e : Param.t)
  : Param.t :=
  {| Param.name := Some (of_arg arg);
     Param.description := Param.description e;
     Param.dataType := Param.dataType e;
     Param.paramType := Some body;
     Param.required := Param.required e |}.

Definition required_update (arg : option string) (body : pyvalue)
           (e : Param.t) : Param.t :=
  {| Param.name := Some (of_arg arg);
     Param.description := Param.description e;
     Param.dataType := Param.dataType e;
     Param.paramType := Param.paramType e;
     Param.required :=
       Some (PyBool (if py_in body [PyStr "False"; PyStr "false"]
                     then false else true)) |}.

(** The tags that write into [params]. *)
Definition param_tags : list string := ["param"; "type"; "in"; "required"].

(** The entry of a parameter after a field for its name. *)
Definition entry_after (f : Field.t) (e : Param.t) : Param.t :=
  let body := DocParser._get_body (Field.body f) in
  if String.eqb (Field.tag f) "param" then param_update (Field.arg f) body e
  else if String.eqb (Field.tag f) "type" then type_update (Field.arg f) body e
  else if String.eqb (Field.tag f) "in" then in_update (Field.arg f) body e
  else if String.eqb (Field.tag f) "required"
       then required_update (Field.arg f) body e
  else e.

(** The field has the tag [tg] and the argument [x]. *)
Definition tagged (tg : string) (x : option string) (f : Field.t) : bool :=
  String.eqb (Field.tag f) tg
  && (if arg_eq_dec x (Field.arg f) then true else false).

(** [k in ks] on keys *)
Definition key_in (k : option string) (ks : list (option string)) : bool :=
  existsb (fun k' => if arg_eq_dec k k' then true else false) ks.

(** The tag is one of those that write into [params]. *)
Definition is_param_tag (tg : string) : bool :=
  existsb (String.eqb tg) param_tags.

(** The keys after a field: a parameter tag whose name is not yet a key
    puts the name last; any other field leaves the keys as they are. *)
Definition mention (ks : list (option string)) (f : Field.t)
  : list (option string) :=
  if is_param_tag (Field.tag f) && negb (key_in (Field.arg f) ks)
  then ks ++ [Field.arg f]
  else ks.

(** The keys after a document: the names in the order of their first
    mention by a parameter tag, each once. *)
Definition first_mentions (ks : list (option string)) (fields : docstring)
  : list (option string) :=
  fold_left mention fields ks.

(** The fields of a documentation text, none for [None]. *)
Definition fields_of (text : option docstring) : docstring :=
  match text with
  | Some fields => fields
  | None => []
  end.

(** * Properties *)

(** ** Facts on the ordered dictionary *)

Section OrderedDictFacts.
Variables K V : Type.
Variable eq_dec : forall a b : K, {a = b} + {a <> b}.
Implicit Types (k : K) (v : V) (d : OrderedDict.t K V).

Lemma get_set_same k v d :
  OrderedDict.get eq_dec k (OrderedDict.set eq_dec k v d) = Some v.
Proof.
  induction d as [|[k' v'] d IH]; simpl.
  - destruct (eq_dec k k); congruence.
  - destruct (eq_dec k k') as [E|N]; simpl.
    + destruct (eq_dec k k'); congruence.
    + destruct (eq_dec k k'); congruence.
Qed.

Lemma get_set_other k k' v d :
  k' <> k ->
  OrderedDict.get eq_dec k' (OrderedDict.set eq_dec k v d)
  = OrderedDict.get eq_dec k' d.
Proof.
  intros N. induction d as [|[k0 v0] d IH]; simpl.
  - destruct (eq_dec k' k); congruence.
  - destruct (eq_dec k k0) as [E|N0]; simpl.
    + subst k0. destruct (eq_dec k' k); congruence.
    + destruct (eq_dec k' k0); congruence.
Qed.

Lemma set_absent k v d :
  OrderedDict.get eq_dec k d = None ->
  OrderedDict.set eq_dec k v d = d ++ [(k, v)].
Proof.
  induction d as [|[k0 v0] d IH]; simpl; [reflexivity|].
  destruct (eq_dec k k0) as [E|N]; [discriminate|].
  intros H. f_equal. exact (IH H).
Qed.

Lemma get_app_absent k d d' :
  OrderedDict.get eq_dec k d = None ->
  OrderedDict.get eq_dec k (d ++ d') = OrderedDict.get eq_dec k d'.
Proof.
  induction d as [|[k0 v0] d IH]; simpl; [reflexivity|].
  destruct (eq_dec k k0); [discriminate|exact IH].
Qed.

Lemma get_setdefault_update_same k v upd d :
  OrderedDict.get eq_dec k (OrderedDict.setdefault_update eq_dec k v upd d)
  = Some (upd (match OrderedDict.get eq_dec k d with
               | Some e => e
               | None => v
               end)).
Proof.
  unfold OrderedDict.setdefault_update.
  destruct (OrderedDict.get eq_dec k d); apply get_set_same.
Qed.

Lemma get_setdefault_update_other k k' v upd d :
  k' <> k ->
  OrderedDict.get eq_dec k' (OrderedDict.setdefault_update eq_dec k v upd d)
  = OrderedDict.get eq_dec k' d.
Proof.
  intros N. unfold OrderedDict.setdefault_update.
  destruct (OrderedDict.get eq_dec k d); now apply get_set_other.
Qed.

Lemma setdefault_absent k v d :
  OrderedDict.get eq_dec k d = None ->
  OrderedDict.setdefault eq_dec k v d = d ++ [(k, v)].
Proof.
  intros H. unfold OrderedDict.setdefault. rewrite H. now apply set_absent.
Qed.

End OrderedDictFacts.

(** ** The inline span extractor keeps the last chunk of text *)

Section EpytextFacts.
Import EpytextParser.

Lemma feed_app l1 l2 p : feed (l1 ++ l2) p = feed l2 (feed l1 p).
Proof. unfold feed. apply fold_left_app. Qed.

Lemma last_data_from_acc acc l :
  last_data_from acc l
  = match last_data_from None l with
    | Some d => Some d
    | None => acc
    end.
Proof.
  revert acc. induction l as [|e l IH]; intros acc; simpl; [reflexivity|].
  destruct e; try apply IH.
  rewrite (IH (Some data0)).
  destruct (last_data_from None l); reflexivity.
Qed.

(** Outside the elements it tracks, the parser keeps what it has. *)
Lemma feed_outside l p :
  a_text p = false -> no_start (tag p) l = true -> feed l p = p.
Proof.
  revert p. induction l as [|e l IH]; intros p Ha Hn; [reflexivity|].
  simpl in Hn. apply andb_true_iff in Hn as [He Hl].
  change (feed (e :: l) p) with (feed l (handle p e)).
  assert (handle p e = p) as ->.
  { destruct e as [tg at'|tg|d]; simpl in *.
    - unfold handle_starttag. apply negb_true_iff in He. now rewrite He.
    - unfold handle_endtag. destruct (String.eqb tg (tag p)); [|reflexivity].
      destruct p; simpl in *; subst; reflexivity.
    - unfold handle_data. now rewrite Ha. }
  now apply IH.
Qed.

(** Inside an element it tracks, it takes every chunk of text in turn. *)
Lemma feed_inside l p :
  a_text p = true -> no_tag (tag p) l = true ->
  feed l p
  = {| tag := tag p; a_text := true;
       data := match last_data l with
               | Some d => PyStr d
               | None => data p
               end |}.
Proof.
  revert p. induction l as [|e l IH]; intros p Ha Hn.
  - destruct p; simpl in *; subst; reflexivity.
  - simpl in Hn. apply andb_true_iff in Hn as [He Hl].
    apply negb_true_iff, orb_false_iff in He as [Hs He].
    change (feed (e :: l) p) with (feed l (handle p e)).
    destruct e as [tg at'|tg|d]; cbn [handle is_start is_end] in *.
    + unfold handle_starttag. rewrite Hs. now apply IH.
    + unfold handle_endtag. rewrite He. now apply IH.
    + unfold handle_data. rewrite Ha.
      rewrite IH by (simpl; auto). simpl.
      unfold last_data. simpl. rewrite (last_data_from_acc (Some d)).
      destruct (last_data_from None l); reflexivity.
Qed.

Lemma feed_tag l p : tag (feed l p) = tag p.
Proof.
  revert p. induction l as [|e l IH]; intros p; [reflexivity|].
  change (feed (e :: l) p) with (feed l (handle p e)). rewrite IH.
  destruct e; simpl;
    [unfold handle_starttag|unfold handle_endtag|unfold handle_data];
    match goal with |- context [if ?b then _ else _] => destruct b end;
    reflexivity.
Qed.

(** The text the extractor returns is the one of the last element. *)
Lemma feed_last_span t w evs :
  last_span t w evs -> get_data (feed evs (__init__ t)) = PyStr w.
Proof.
  intros (pre & attr & inner & post & -> & Hin & Hw & Hpost).
  rewrite feed_app.
  set (p := feed pre (__init__ t)).
  assert (Ht : tag p = t) by (unfold p; now rewrite feed_tag).
  change (feed (StartTag t attr :: inner ++ EndTag t :: post) p)
    with (feed (inner ++ EndTag t :: post) (handle_starttag t attr p)).
  unfold handle_starttag. rewrite Ht, String.eqb_refl.
  rewrite feed_app.
  rewrite (feed_inside inner); [|reflexivity|exact Hin].
  simpl tag. rewrite Hw.
  match goal with
  | |- context [feed (EndTag t :: post) ?q] =>
      change (feed (EndTag t :: post) q) with (feed post (handle_endtag t q))
  end.
  unfold handle_endtag. simpl. rewrite String.eqb_refl.
  now rewrite feed_outside.
Qed.

(** Without an element [t] there is no text. *)
Lemma feed_no_span t evs :
  no_start t evs = true -> get_data (feed evs (__init__ t)) = PyNone.
Proof.
  intros H. now rewrite feed_outside.
Qed.

Lemma text_is_last_data w l : text_is w l = true -> last_data l = Some w.
Proof.
  unfold text_is, last_data.
  assert (G : forall acc,
             forallb (fun e => match e with
                               | Data d => String.eqb d w
                               | _ => true
                               end) l = true ->
             (forall d, acc = Some d -> d = w) ->
             forall d, last_data_from acc l = Some d -> d = w).
  { induction l as [|e l IH]; intros acc Hall Hacc d; simpl.
    - apply Hacc.
    - simpl in Hall. apply andb_true_iff in Hall as [He Hl].
      destruct e; try (apply IH; assumption).
      apply IH; [assumption|]. intros d' [= <-]. now apply String.eqb_eq. }
  destruct (last_data_from None l) as [d|] eqn:E; [|discriminate].
  intros Hall. f_equal. apply (G None Hall); [discriminate|exact E].
Qed.

End EpytextFacts.

(** ** The tag handlers *)

Section HandlerFacts.
Import DocParser.

(** Case analysis on the handler that a tag selects. *)
Lemma _get_parser_cases (P : string -> handler -> Prop) :
  P "param" _parse_param ->
  P "type" _parse_type ->
  P "in" _parse_in ->
  P "required" _parse_required ->
  P "rtype" _parse_rtype ->
  P "property" _parse_property ->
  P "ptype" _parse_ptype ->
  P "return" _parse_return ->
  P "raise" _parse_return ->
  P "notes" _parse_notes ->
  P "description" _parse_description ->
  (forall tg, ~ In tg known_tags -> P tg _not_supported) ->
  forall tg, P tg (_get_parser tg).
Proof.
  intros H1 H2 H3 H4 H5 H6 H7 H8 H9 H10 H11 H12 tg. unfold _get_parser.
  repeat match goal with
         | |- context [String.eqb tg ?lit] =>
             let E := fresh "E" in
             destruct (String.eqb tg lit) eqn:E;
             [apply String.eqb_eq in E; subst tg; assumption
             |apply String.eqb_neq in E]
         end.
  apply H12. unfold known_tags. simpl. intuition congruence.
Qed.

(** [param] writes into [params] only, [ptype] into [properties] only. *)
Lemma _parse_param_frame a b self :
  _parse_param a b self = with_params (params (_parse_param a b self)) self.
Proof.
  unfold _parse_param. cbv zeta.
  match goal with
  | |- context [OrderedDict.get arg_eq_dec a ?d] =>
      destruct (OrderedDict.get arg_eq_dec a d) as [e|]
  end; [destruct (Param.paramType e)|]; reflexivity.
Qed.

Lemma _parse_ptype_frame a b self :
  _parse_ptype a b self
  = with_properties (properties (_parse_ptype a b self)) self.
Proof.
  unfold _parse_ptype. cbv zeta.
  destruct (_parse_epytext_para "code" b); try destruct (py_eq _ _);
    destruct self; reflexivity.
Qed.

(** Only [rtype] writes into [responseClasses]. *)
Lemma dispatch_responseClasses c self f :
  OrderedDict.get arg_eq_dec c (responseClasses (dispatch self f))
  = if records_rtype c f
    then Some (_get_body (Field.body f))
    else OrderedDict.get arg_eq_dec c (responseClasses self).
Proof.
  destruct f as [tg a b]. unfold dispatch, records_rtype. simpl.
  pattern tg, (_get_parser tg). apply _get_parser_cases; try reflexivity.
  - now rewrite _parse_param_frame.
  - unfold _parse_rtype. simpl.
    destruct (arg_truthy a) eqn:Ha; simpl; [|reflexivity].
    destruct (arg_eq_dec c a) as [->|N].
    + apply get_set_same.
    + now apply get_set_other.
  - now rewrite _parse_ptype_frame.
  - intros tg' Hn.
    destruct (String.eqb tg' "rtype") eqn:E; [|reflexivity].
    apply String.eqb_eq in E. subst tg'. exfalso. apply Hn.
    unfold known_tags. simpl. tauto.
Qed.

Lemma parse_responseClasses c fields self :
  OrderedDict.get arg_eq_dec c (responseClasses (fold_left dispatch fields self))
  = recorded_rtype_from
      (OrderedDict.get arg_eq_dec c (responseClasses self)) c fields.
Proof.
  revert self. induction fields as [|f fields IH]; intros self; simpl.
  - reflexivity.
  - rewrite IH, dispatch_responseClasses. reflexivity.
Qed.

(** No handler touches the messages already appended. *)
Lemma dispatch_responseMessages self f :
  exists l, responseMessages (dispatch self f) = responseMessages self ++ l.
Proof.
  destruct f as [tg a b]. unfold dispatch. simpl.
  pattern tg, (_get_parser tg). apply _get_parser_cases;
    try (exists []; rewrite app_nil_r; reflexivity);
    try (eexists; unfold _parse_return; simpl; reflexivity).
  - exists []. rewrite _parse_param_frame, app_nil_r. reflexivity.
  - unfold _parse_rtype. destruct (arg_truthy a);
      exists []; rewrite app_nil_r; reflexivity.
  - exists []. rewrite _parse_ptype_frame, app_nil_r. reflexivity.
Qed.

Lemma parse_responseMessages fields self :
  exists l,
    responseMessages (fold_left dispatch fields self)
    = responseMessages self ++ l.
Proof.
  revert self. induction fields as [|f fields IH]; intros self; simpl.
  - exists []. now rewrite app_nil_r.
  - destruct (IH (dispatch self f)) as [l Hl].
    destruct (dispatch_responseMessages self f) as [l' Hl'].
    exists (l' ++ l). rewrite Hl, Hl'. now rewrite app_assoc.
Qed.

End HandlerFacts.

(** ** Claims on the tag handlers *)

Section HandlerClaims.
Import DocParser.

(** C2, as the claim states it, fails: a [required] field whose body is
    [False], with a capital, stores [required == false], not [true]. *)
Lemma required_capital_False_counterexample :
  OrderedDict.get arg_eq_dec (Some "x")
    (params (dispatch __init__ (field "required" "x" "False")))
  = Some {| Param.name := Some (PyStr "x");
            Param.description := None;
            Param.dataType := None;
            Param.paramType := None;
            Param.required := Some (PyBool false) |}.
Proof. reflexivity. Qed.

(** C2, amended: dispatching a [required] field for [x] stores
    [required == false] when the stripped plain text of the body is
    [false] or [False], and [required == true] for every other body (an
    absent one included); the entry gets [name = x] and keeps its other
    keys. *)
Theorem required_false_iff_False_or_false
        (self : t) (x : option string) (body : option ParsedDocstring) :
  let self' := _parse_required x body self in
  exists e,
    OrderedDict.get arg_eq_dec x (params self') = Some e /\
    Param.name e = Some (of_arg x) /\
    (_get_body body = PyStr "false" \/ _get_body body = PyStr "False" ->
     Param.required e = Some (PyBool false)) /\
    (_get_body body <> PyStr "false" -> _get_body body <> PyStr "False" ->
     Param.required e = Some (PyBool true)) /\
    Param.description e = Param.description (param_entry x self) /\
    Param.dataType e = Param.dataType (param_entry x self) /\
    Param.paramType e = Param.paramType (param_entry x self).
Proof.
  cbv zeta. unfold _parse_required. simpl.
  rewrite get_setdefault_update_same. eexists. split; [reflexivity|].
  simpl. unfold param_entry. repeat split.
  - intros [-> | ->]; reflexivity.
  - intros N1 N2. destruct (_get_body body) as [| | |s]; try reflexivity.
    unfold py_in. simpl.
    destruct (String.eqb s "False") eqn:E1.
    { apply String.eqb_eq in E1. congruence. }
    destruct (String.eqb s "false") eqn:E2.
    { apply String.eqb_eq in E2. congruence. }
    reflexivity.
Qed.

Lemma required_false_iff_False_or_false_witness :
  exists e,
    OrderedDict.get arg_eq_dec (Some "x")
      (params (_parse_required (Some "x") (Some (plain " false ")) __init__))
    = Some e /\
    Param.required e = Some (PyBool false).
Proof.
  destruct (required_false_iff_False_or_false
              __init__ (Some "x") (Some (plain " false ")))
    as (e & He & _ & Hf & _).
  exists e. split; [exact He|]. apply Hf. left. reflexivity.
Defined.



(** What a [ptype] field stores, by the text that the extractor returns. *)
Lemma ptype_stores
      (self : t) (p : option string) (b : ParsedDocstring) :
  (forall W,
     last_span "code" "list" (markup b) ->
     last_span "link" W (markup b) ->
     OrderedDict.get arg_eq_dec p (properties (_parse_ptype p (Some b) self))
     = Some {| Property.type := Some (PyStr "array");
               Property.description :=
                 Property.description (property_entry p self);
               Property.default := Property.default (property_entry p self);
               Property.items := Some (PyStr W) |}) /\
  (no_start "code" (markup b) = true ->
   OrderedDict.get arg_eq_dec p (properties (_parse_ptype p (Some b) self))
   = Some {| Property.type := Some (PyStr (strip (to_plaintext b)));
             Property.description :=
               Property.description (property_entry p self);
             Property.default := Property.default (property_entry p self);
             Property.items := Property.items (property_entry p self) |}).
Proof.
  unfold _parse_ptype, _parse_epytext_para. cbv zeta. split.
  - intros W Hc Hl.
    rewrite (feed_last_span Hc), (feed_last_span Hl). simpl.
    now rewrite get_setdefault_update_same.
  - intros Hn. rewrite (feed_no_span _ _ Hn). simpl.
    now rewrite get_setdefault_update_same.
Qed.




(** C10, as the claim states it, fails: the body [C{tuple} or C{list} of
    L{Widget}] has a [code] span whose text, [tuple], is there and is not
    [list], and the [ptype] field adds the property [p] as an array. *)
Lemma ptype_other_code_counterexample :
  contains_span "code" "tuple" (markup body_tuple_or_list) /\
  "tuple" <> "list" /\
  properties (_parse_ptype (Some "p") (Some body_tuple_or_list) __init__)
  = [(Some "p", {| Property.type := Some (PyStr "array");
                   Property.description := None;
                   Property.default := None;
                   Property.items := Some (PyStr "Widget") |})] /\
  properties __init__ = [].
Proof.
  split; [|split; [discriminate|split; reflexivity]].
  exists [StartTag "epytext" []; StartTag "para" [("inline", "True")]], [],
    [Data "tuple"].
  eexists. repeat split.
Qed.

(** C10, amended: a [ptype] field whose body ends its last [code] element
    with a text that is not [list] changes nothing: the accumulator, its
    [properties] included, is the one before. *)
Theorem ptype_other_code_is_noop
        (self : t) (p : option string) (b : ParsedDocstring) (c : string) :
  last_span "code" c (markup b) ->
  c <> "list" ->
  _parse_ptype p (Some b) self = self.
Proof.
  intros Hc Hn. unfold _parse_ptype, _parse_epytext_para. cbv zeta.
  rewrite (feed_last_span Hc). simpl.
  destruct (String.eqb c "list") eqn:E; [|reflexivity].
  apply String.eqb_eq in E. contradiction.
Qed.

Lemma ptype_other_code_is_noop_witness :
  _parse_ptype (Some "p") (Some body_dict) __init__ = __init__.
Proof.
  apply (@ptype_other_code_is_noop __init__ (Some "p") body_dict "dict").
  - exists [StartTag "epytext" []; StartTag "para" [("inline", "True")]], [],
      [Data "dict"].
    eexists. repeat split.
  - discriminate.
Defined.

(** C3, as the claim states it, fails: with [@rtype 200:] of empty body
    dispatched before [@return 200: OK], the message appended has no
    [responseModel] key, although an [rtype] field for [200] recorded its
    body earlier. *)
Lemma return_after_empty_rtype_counterexample :
  let fields := [field "rtype" "200" ""; field "return" "200" "OK"] in
  OrderedDict.get arg_eq_dec (Some "200")
    (responseClasses (parse_docstring (Some [field "rtype" "200" ""]) __init__))
  = Some (PyStr "") /\
  responseMessages (parse_docstring (Some fields) __init__)
  = [{| Response.code := Some (PyStr "200");
        Response.message := Some (PyStr "OK");
        Response.responseModel := None |}].
Proof. split; reflexivity. Qed.

(** C3, amended: in a document dispatched in order from a new accumulator,
    a [return] or [raise] field with argument [c] appends the message
    [{code: c, message: body}]; its [responseModel] is the body that the
    last earlier [rtype] field for [c] recorded ([rtype] records only
    under an argument that is not empty), and the key is left out when no
    such field came earlier or when the recorded body is empty.  The
    fields that follow, an [rtype] for [c] among them, leave the message
    as it was appended. *)
Theorem return_resolves_earlier_rtype
        (pre post : list Field.t) (tg : string) (c : option string)
        (body : option ParsedDocstring) :
  tg = "return" \/ tg = "raise" ->
  let ret_field := {| Field.tag := tg; Field.arg := c; Field.body := body |} in
  let before := parse_docstring (Some pre) __init__ in
  let final := parse_docstring (Some (pre ++ ret_field :: post)) __init__ in
  nth_error (responseMessages final) (length (responseMessages before))
  = Some {| Response.code := Some (of_arg c);
            Response.message := Some (_get_body body);
            Response.responseModel := resolved_model (recorded_rtype c pre) |}.
Proof.
  intros Htg. cbv zeta. unfold parse_docstring.
  rewrite fold_left_app. simpl fold_left.
  set (before := fold_left dispatch pre __init__).
  destruct (parse_responseMessages post
              (dispatch before
                 {| Field.tag := tg; Field.arg := c; Field.body := body |}))
    as [l Hl].
  rewrite Hl.
  assert (Hd : dispatch before
                 {| Field.tag := tg; Field.arg := c; Field.body := body |}
               = _parse_return c body before).
  { unfold dispatch. simpl. destruct Htg as [-> | ->]; reflexivity. }
  rewrite Hd. unfold _parse_return. cbv zeta. simpl responseMessages.
  rewrite <- app_assoc. rewrite nth_error_app2 by lia.
  rewrite Nat.sub_diag. simpl. do 2 f_equal.
  unfold before. rewrite parse_responseClasses. reflexivity.
Qed.

Lemma return_resolves_earlier_rtype_witness :
  nth_error
    (responseMessages
       (parse_docstring
          (Some ([field "rtype" "200" "Widget"]
                 ++ field "return" "200" "OK"
                 :: [field "rtype" "200" "Gadget"]))
          __init__))
    0
  = Some {| Response.code := Some (PyStr "200");
            Response.message := Some (PyStr "OK");
            Response.responseModel := Some (PyStr "Widget") |}.
Proof.
  exact (@return_resolves_earlier_rtype
           [field "rtype" "200" "Widget"] [field "rtype" "200" "Gadget"]
           "return" (Some "200") (Some (plain "OK")) (or_introl eq_refl)).
Defined.

End HandlerClaims.

(** ** The model decorator *)

Section ModelFacts.
Import model.

Lemma add_required_absent (self : t) (a : string) :
  OrderedDict.get arg_eq_dec (Some a) (DocParser.properties (doc self)) = None ->
  add_required self a
  = with_doc
      (fun d =>
         DocParser.with_properties
           (DocParser.properties d ++ [(Some a, required_seed)]) d)
      (with_required (required self ++ [a]) self).
Proof.
  intros H. unfold add_required, with_doc, with_required. simpl.
  now rewrite (setdefault_absent arg_eq_dec) by exact H.
Qed.

Lemma add_default_absent (self : t) (p : string * pyvalue) :
  OrderedDict.get arg_eq_dec (Some (fst p)) (DocParser.properties (doc self))
  = None ->
  add_default self p
  = with_doc
      (fun d =>
         DocParser.with_properties
           (DocParser.properties d ++ [(Some (fst p), default_seed (snd p))])
           d)
      self.
Proof.
  intros H. unfold add_default, with_doc. simpl.
  now rewrite (setdefault_absent arg_eq_dec) by exact H.
Qed.

Lemma fold_add_required (l : list string) (self : t) :
  NoDup l ->
  (forall a, In a l ->
     OrderedDict.get arg_eq_dec (Some a) (DocParser.properties (doc self))
     = None) ->
  fold_left add_required l self
  = with_doc
      (fun d =>
         DocParser.with_properties
           (DocParser.properties d ++ map (fun a => (Some a, required_seed)) l)
           d)
      (with_required (required self ++ l) self).
Proof.
  revert self. induction l as [|a l IH]; intros self Hnd Hfresh.
  - destruct self as [[] ? ? ? ? ?].
    unfold with_doc, with_required, DocParser.with_properties. simpl.
    now rewrite !app_nil_r.
  - inversion Hnd as [|? ? Hna Hnd']; subst. simpl fold_left.
    rewrite add_required_absent by (apply Hfresh; now left).
    rewrite IH; [|assumption|].
    + destruct self as [[] ? ? ? ? ?].
      unfold with_doc, with_required, DocParser.with_properties. simpl.
      now rewrite <- !app_assoc.
    + intros a' Ha'. unfold with_doc, with_required. simpl.
      rewrite get_app_absent by (apply Hfresh; now right).
      cbn [OrderedDict.get].
      destruct (arg_eq_dec (Some a') (Some a)) as [E|N]; [|reflexivity].
      assert (a' = a) by congruence. subst a'. contradiction.
Qed.

Lemma fold_add_default (l : list (string * pyvalue)) (self : t) :
  NoDup (map fst l) ->
  (forall a, In a (map fst l) ->
     OrderedDict.get arg_eq_dec (Some a) (DocParser.properties (doc self))
     = None) ->
  fold_left add_default l self
  = with_doc
      (fun d =>
         DocParser.with_properties
           (DocParser.properties d
            ++ map (fun p => (Some (fst p), default_seed (snd p))) l)
           d)
      self.
Proof.
  revert self. induction l as [|[a v] l IH]; intros self Hnd Hfresh.
  - destruct self as [[] ? ? ? ? ?].
    unfold with_doc, DocParser.with_properties. simpl.
    now rewrite !app_nil_r.
  - simpl in Hnd. inversion Hnd as [|? ? Hna Hnd']; subst. simpl fold_left.
    rewrite add_default_absent by (apply Hfresh; now left).
    rewrite IH; [|assumption|].
    + destruct self as [[] ? ? ? ? ?].
      unfold with_doc, DocParser.with_properties. simpl.
      now rewrite <- !app_assoc.
    + intros a' Ha'. unfold with_doc. simpl.
      rewrite get_app_absent by (apply Hfresh; now right).
      cbn [OrderedDict.get].
      destruct (arg_eq_dec (Some a') (Some a)) as [E|N]; [|reflexivity].
      assert (a' = a) by congruence. subst a'. contradiction.
Qed.

(** Once [self.cls] holds a class, a call answers it and does nothing. *)
Lemma model_call_built (s : state) (c : pyclass) (a : callargs) :
  cls (self s) = Some (ObjClass c) -> __call__ a s = (Ok (ObjClass c), s).
Proof.
  intros H. unfold __call__, bind, gets, ret. rewrite H. reflexivity.
Qed.

Lemma cls_fold_add_required l self :
  cls (fold_left add_required l self) = cls self.
Proof.
  revert self. induction l as [|a l IH]; intros self; [reflexivity|].
  simpl. now rewrite IH.
Qed.

Lemma cls_fold_add_default l self :
  cls (fold_left add_default l self) = cls self.
Proof.
  revert self. induction l as [|a l IH]; intros self; [reflexivity|].
  simpl. now rewrite IH.
Qed.

Lemma _parse_args_unfold (init : pyfunction) (s : state) :
  _parse_args (ObjFunction init) s
  = match fn_argspec init with
    | None => (Raise TypeError, s)
    | Some spec =>
        match list_remove "self" (ArgSpec.args spec) with
        | None => (Raise ValueError, s)
        | Some args =>
            (Ok tt,
             {| self :=
                  fold_left add_default (snd (split_defaults args spec))
                    (fold_left add_required (fst (split_defaults args spec))
                       (self s));
                models := models s |})
        end
    end.
Proof.
  unfold _parse_args, bind, lift_option, on_self, modify, ret, raise. simpl.
  destruct (fn_argspec init) as [spec|]; simpl; [|reflexivity].
  destruct (list_remove "self" (ArgSpec.args spec)); reflexivity.
Qed.

(** [_parse_model] stores the class before it reads the constructor, and
    appends to the registry only at its very end. *)
Lemma _parse_model_unfold (c : pyclass) (s : state) :
  _parse_model (ObjClass c) s
  = let s1 := {| self := with_cls (ObjClass c) (with_id (cls_name c) (self s));
                 models := models s |} in
    match match cls_init c with
          | Some init => _parse_args (ObjFunction init) s1
          | None => (Ok tt, s1)
          end
    with
    | (Ok _, s2) =>
        let self3 :=
          with_doc (DocParser.parse_docstring (cls_doc c)) (self s2) in
        (Ok tt, {| self := self3; models := models s2 ++ [self3] |})
    | (Raise e, s2) => (Raise e, s2)
    end.
Proof.
  unfold _parse_model, bind, on_self, modify, lift_option, ret,
    models_append. simpl.
  destruct (cls_init c) as [init|]; simpl; [|reflexivity].
  destruct (_parse_args (ObjFunction init) _) as [[u|e] s2]; reflexivity.
Qed.

Lemma _parse_args_frame (init : pyfunction) (s : state) :
  cls (self (snd (_parse_args (ObjFunction init) s))) = cls (self s) /\
  models (snd (_parse_args (ObjFunction init) s)) = models s.
Proof.
  rewrite _parse_args_unfold.
  destruct (fn_argspec init) as [spec|]; [|split; reflexivity].
  destruct (list_remove "self" (ArgSpec.args spec)); [|split; reflexivity].
  simpl. now rewrite cls_fold_add_default, cls_fold_add_required.
Qed.

Lemma _parse_model_sets_cls (c : pyclass) (s : state) :
  cls (self (snd (_parse_model (ObjClass c) s))) = Some (ObjClass c).
Proof.
  rewrite _parse_model_unfold. cbv zeta.
  destruct (cls_init c) as [init|]; [|reflexivity].
  destruct (_parse_args_frame init
              {| self := with_cls (ObjClass c) (with_id (cls_name c) (self s));
                 models := models s |}) as [Hc _].
  destruct (_parse_args (ObjFunction init) _) as [[u|e] s2]; simpl in *.
  - exact Hc.
  - exact Hc.
Qed.

Lemma map_fst_combine (A B : Type) (l : list A) (l' : list B) :
  length l = length l' -> map fst (combine l l') = l.
Proof.
  revert l'. induction l as [|x l IH]; intros [|y l'] H; simpl in *;
    try discriminate; [reflexivity|].
  f_equal. apply IH. congruence.
Qed.

Lemma split_defaults_exact (req dfl : list string) (vs : list pyvalue)
      (spec : ArgSpec.t) :
  tuple_or_empty (ArgSpec.defaults spec) = vs ->
  length dfl = length vs ->
  split_defaults (req ++ dfl) spec = (req, combine dfl vs).
Proof.
  intros <- Hlen. unfold split_defaults. cbv zeta.
  set (vs := tuple_or_empty (ArgSpec.defaults spec)) in *.
  assert (Hd : match vs with
               | [] => []
               | _ :: _ => combine (slice_last (length vs) (req ++ dfl)) vs
               end = combine dfl vs).
  { destruct vs as [|v vs'] eqn:E.
    - destruct dfl; [reflexivity|discriminate].
    - rewrite <- E in *. unfold slice_last.
      assert (length vs <> 0) as Hnz by (rewrite E; simpl; lia).
      apply Nat.eqb_neq in Hnz. rewrite Hnz.
      rewrite length_app, <- Hlen.
      replace (length req + length dfl - length dfl) with (length req + 0)
        by lia.
      rewrite skipn_app, Nat.add_0_r, skipn_all.
      replace (length req - length req) with 0 by lia. reflexivity. }
  rewrite Hd. f_equal.
  rewrite length_combine, <- Hlen, Nat.min_id, length_app.
  replace (length req + length dfl - length dfl) with (length req + 0) by lia.
  now rewrite firstn_app_2, app_nil_r.
Qed.

Lemma get_required_seed (a : string) (req : list string)
      (d : OrderedDict.t (option string) Property.t) :
  In a req ->
  OrderedDict.get arg_eq_dec (Some a)
    (map (fun a => (Some a, required_seed)) req ++ d)
  = Some required_seed.
Proof.
  induction req as [|x req IH]; intros H; [contradiction|].
  cbn [map app OrderedDict.get].
  destruct (arg_eq_dec (Some a) (Some x)) as [E|N]; [reflexivity|].
  apply IH. destruct H as [->|H]; [congruence|exact H].
Qed.

Lemma get_required_seed_absent (a : string) (req : list string) :
  ~ In a req ->
  OrderedDict.get arg_eq_dec (Some a)
    (map (fun a => (Some a, required_seed)) req)
  = None.
Proof.
  induction req as [|x req IH]; intros H; [reflexivity|].
  cbn [map OrderedDict.get].
  destruct (arg_eq_dec (Some a) (Some x)) as [E|N].
  - exfalso. apply H. left. congruence.
  - apply IH. intros I. apply H. now right.
Qed.

Lemma get_default_seed (d : string) (v : pyvalue)
      (l : list (string * pyvalue)) :
  NoDup (map fst l) -> In (d, v) l ->
  OrderedDict.get arg_eq_dec (Some d)
    (map (fun p => (Some (fst p), default_seed (snd p))) l)
  = Some (default_seed v).
Proof.
  induction l as [|[x w] l IH]; intros Hnd H; [contradiction|].
  simpl in Hnd. inversion Hnd as [|? ? Hx Hnd']; subst.
  cbn [map OrderedDict.get fst snd].
  destruct (arg_eq_dec (Some d) (Some x)) as [E|N].
  - assert (d = x) by congruence. subst x.
    destruct H as [H|H]; [congruence|].
    exfalso. apply Hx. change d with (fst (d, v)). now apply in_map.
  - destruct H as [H|H]; [congruence|]. now apply IH.
Qed.

End ModelFacts.

(** ** Claims on the model decorator *)

Section ModelClaims.
Import model.

(** C9: when the introspection of the constructor of a class fails
    ([inspect.getargspec] refuses it, or no parameter is called [self]),
    the call of a new decorator on the class raises that error, and the
    registry is the one before: nothing was appended. *)
Theorem introspection_failure_registers_nothing
        (c : pyclass) (init : pyfunction) (e : exn)
        (args : list pyobj) (kwargs : list (string * pyobj))
        (registry : list t) (rest : list pyobj) (kw : list (string * pyobj)) :
  cls_init c = Some init ->
  introspection_error init = Some e ->
  let r := __call__ {| pos := ObjClass c :: rest; kw := kw |}
                    (new_model args kwargs registry) in
  fst r = Raise e /\ models (snd r) = registry.
Proof.
  intros Hinit Herr. cbv zeta.
  unfold __call__, bind, gets, new_model. simpl.
  rewrite _parse_model_unfold. cbv zeta. rewrite Hinit.
  rewrite _parse_args_unfold. unfold introspection_error in Herr.
  destruct (fn_argspec init) as [spec|].
  - destruct (list_remove "self" (ArgSpec.args spec)); [discriminate|].
    injection Herr as <-. split; reflexivity.
  - injection Herr as <-. split; reflexivity.
Qed.

Lemma introspection_failure_registers_nothing_witness :
  let r := __call__ (call_with (ObjClass gadget_class)) (new_model [] [] []) in
  fst r = Raise ValueError /\ models (snd r) = [].
Proof.
  exact (@introspection_failure_registers_nothing
           gadget_class gadget_init ValueError [] [] [] [] []
           eq_refl eq_refl).
Defined.

(** C4: a new decorator called on a class [C], and called again any
    number of times: when the first call returns, it has appended the
    instance to the registry, once; every later call, whatever the first
    one did, finds [self.cls] set, answers [C] and appends nothing. *)
Theorem model_registered_once
        (c : pyclass) (args : list pyobj) (kwargs : list (string * pyobj))
        (registry : list t) (rest : list pyobj) (kw : list (string * pyobj)) :
  let first := __call__ {| pos := ObjClass c :: rest; kw := kw |}
                        (new_model args kwargs registry) in
  (forall v, fst first = Ok v ->
     v = ObjClass c /\
     models (snd first) = registry ++ [self (snd first)]) /\
  (forall a, __call__ a (snd first) = (Ok (ObjClass c), snd first)) /\
  (forall later, call_many later (snd first) = snd first).
Proof.
  cbv zeta.
  assert (Hcls : cls (self (snd (__call__ {| pos := ObjClass c :: rest;
                                            kw := kw |}
                                          (new_model args kwargs registry))))
                 = Some (ObjClass c)).
  { unfold __call__, bind, gets, ret, new_model. simpl.
    pose proof (_parse_model_sets_cls c
                  {| self := __init__ args kwargs; models := registry |}) as H.
    destruct (_parse_model (ObjClass c) _) as [[u|e] s1]; exact H. }
  split; [|split].
  - intros v. unfold __call__, bind, gets, ret, new_model. simpl.
    rewrite _parse_model_unfold. cbv zeta.
    destruct (cls_init c) as [init|].
    + destruct (_parse_args_frame init
                  {| self := with_cls (ObjClass c)
                               (with_id (cls_name c) (__init__ args kwargs));
                     models := registry |}) as [_ Hm].
      destruct (_parse_args (ObjFunction init) _) as [[u|e] s2]; simpl in *.
      * intros [= <-]. split; [reflexivity|]. now rewrite Hm.
      * discriminate.
    + simpl. intros [= <-]. split; reflexivity.
  - intros a. now apply model_call_built.
  - intros later. induction later as [|a later IH]; [reflexivity|].
    unfold call_many in *. simpl.
    rewrite (model_call_built _ a Hcls). exact IH.
Qed.

Lemma model_registered_once_witness :
  let first :=
    __call__ (call_with (ObjClass widget_class)) (new_model [] [] []) in
  length (models (snd first)) = 1 /\
  length (models (snd (__call__ (call_with (ObjClass widget_class))
                                (snd first)))) = 1.
Proof.
  cbv zeta.
  destruct (@model_registered_once widget_class [] [] [] [] [])
    as (H1 & H2 & _).
  change (__call__ {| pos := [ObjClass widget_class]; kw := [] |}
                   (new_model [] [] []))
    with (__call__ (call_with (ObjClass widget_class)) (new_model [] [] []))
    in H1, H2.
  rewrite H2.
  destruct (H1 (ObjClass widget_class) eq_refl) as [_ Hm].
  rewrite Hm. split; reflexivity.
Defined.

(** What the decorator leaves for a constructor
    [(self, a1..an, d1=v1..dk=vk)], and what one field does on the seeded
    accumulator. *)
Lemma seeded_model_core
        (c : pyclass) (init : pyfunction) (req dfl : list string)
        (vs : list pyvalue) (dflt : option (list pyvalue))
        (args : list pyobj) (kwargs : list (string * pyobj))
        (registry : list t) (rest : list pyobj) (kw : list (string * pyobj)) :
  cls_init c = Some init ->
  fn_argspec init
  = Some {| ArgSpec.args := "self" :: req ++ dfl; ArgSpec.defaults := dflt |} ->
  tuple_or_empty dflt = vs ->
  length dfl = length vs ->
  NoDup (req ++ dfl) ->
  let r := __call__ {| pos := ObjClass c :: rest; kw := kw |}
                    (new_model args kwargs registry) in
  let seeded :=
    DocParser.with_properties (seeded_properties req (combine dfl vs))
      DocParser.__init__ in
  fst r = Ok (ObjClass c) /\
  required (self (snd r)) = req /\
  doc (self (snd r)) = DocParser.parse_docstring (cls_doc c) seeded /\
  (forall a, In a req ->
     OrderedDict.get arg_eq_dec (Some a) (DocParser.properties seeded)
     = Some required_seed) /\
  (forall d v, In (d, v) (combine dfl vs) ->
     OrderedDict.get arg_eq_dec (Some d) (DocParser.properties seeded)
     = Some (default_seed v)) /\
  (forall p seed,
     OrderedDict.get arg_eq_dec (Some p) (DocParser.properties seeded)
     = Some seed ->
     (forall body,
        OrderedDict.get arg_eq_dec (Some p)
          (DocParser.properties
             (DocParser.dispatch seeded
                {| Field.tag := "property"; Field.arg := Some p;
                   Field.body := body |}))
        = Some {| Property.type := Property.type seed;
                  Property.description := Some (DocParser._get_body body);
                  Property.default := Property.default seed;
                  Property.items := Property.items seed |}) /\
     (forall b, no_start "code" (markup b) = true ->
        OrderedDict.get arg_eq_dec (Some p)
          (DocParser.properties
             (DocParser.dispatch seeded
                {| Field.tag := "ptype"; Field.arg := Some p;
                   Field.body := Some b |}))
        = Some {| Property.type := Some (PyStr (strip (to_plaintext b)));
                  Property.description := Property.description seed;
                  Property.default := Property.default seed;
                  Property.items := Property.items seed |})).
Proof.
  intros Hinit Hspec Hvs Hlen Hnd. cbv zeta.
  assert (Hnd_req : NoDup req) by (now apply NoDup_app_remove_r in Hnd).
  assert (Hnd_dfl : NoDup dfl) by (now apply NoDup_app_remove_l in Hnd).
  assert (Hdisj : forall d, In d dfl -> ~ In d req).
  { intros d Hd Hr. revert Hnd. clear - Hd Hr.
    induction req as [|x req IH]; [contradiction|].
    simpl. intros Hnd. inversion Hnd as [|? ? Hx Hnd']; subst.
    destruct Hr as [->|Hr]; [apply Hx, in_or_app; now right|now apply IH]. }
  assert (Hfst : map fst (combine dfl vs) = dfl) by now apply map_fst_combine.
  split; [|split; [|split; [|split; [|split]]]].
  - unfold __call__, bind, gets, ret, new_model. simpl.
    rewrite _parse_model_unfold. cbv zeta. rewrite Hinit.
    rewrite _parse_args_unfold, Hspec. reflexivity.
  - unfold __call__, bind, gets, ret, new_model. simpl.
    rewrite _parse_model_unfold. cbv zeta. rewrite Hinit.
    rewrite _parse_args_unfold, Hspec.
    cbn [list_remove String.eqb Ascii.eqb Bool.eqb ArgSpec.args].
    rewrite (split_defaults_exact req dfl (vs := vs)) by assumption.
    cbn [fst snd self models].
    rewrite fold_add_required by (auto; intros; reflexivity).
    rewrite fold_add_default.
    + reflexivity.
    + now rewrite Hfst.
    + rewrite Hfst. intros d Hd. simpl.
      now apply get_required_seed_absent, Hdisj.
  - unfold __call__, bind, gets, ret, new_model. simpl.
    rewrite _parse_model_unfold. cbv zeta. rewrite Hinit.
    rewrite _parse_args_unfold, Hspec.
    cbn [list_remove String.eqb Ascii.eqb Bool.eqb ArgSpec.args].
    rewrite (split_defaults_exact req dfl (vs := vs)) by assumption.
    cbn [fst snd self models].
    rewrite fold_add_required by (auto; intros; reflexivity).
    rewrite fold_add_default.
    + reflexivity.
    + now rewrite Hfst.
    + rewrite Hfst. intros d Hd. simpl.
      now apply get_required_seed_absent, Hdisj.
  - intros a Ha. simpl. unfold seeded_properties.
    now apply get_required_seed.
  - intros d v Hin. simpl. unfold seeded_properties.
    rewrite get_app_absent.
    + apply get_default_seed; [now rewrite Hfst|exact Hin].
    + apply get_required_seed_absent, Hdisj. now apply in_combine_l in Hin.
  - intros p seed Hseed. split.
    + intros body. unfold DocParser.dispatch. simpl.
      unfold DocParser._parse_property. simpl.
      rewrite get_setdefault_update_same. simpl in Hseed. now rewrite Hseed.
    + intros b Hn. unfold DocParser.dispatch. simpl.
      rewrite (proj2 (ptype_stores _ (Some p) b) Hn).
      unfold property_entry. now rewrite Hseed.
Qed.


End ModelClaims.

(** ** The operation decorator *)

Section OperationFacts.
Import operation.
Variable run : pyobj -> callargs -> result pyobj.

Lemma func_fold_add_param defaults l self :
  func (fold_left (add_param defaults) l self) = func self.
Proof.
  revert self. induction l as [|a l IH]; intros self; [reflexivity|].
  simpl. now rewrite IH.
Qed.

(** [_parse_operation] on a function object: [self.func] is stored first;
    the signature is read once, the documentation once if the signature
    could be read. *)
Lemma _parse_operation_function (fn : pyfunction) (s : state) :
  _parse_operation (ObjFunction fn) s
  = let self1 := with_name (fn_name fn) (with_func (ObjFunction fn) (self s)) in
    match fn_argspec fn with
    | None =>
        (Raise TypeError,
         {| self := self1;
            calls := calls s ++ [GetArgSpec (ObjFunction fn)] |})
    | Some spec =>
        (Ok tt,
         {| self :=
              with_doc (DocParser.parse_docstring (fn_doc fn))
                (with_func_args (operation_args spec)
                   (fold_left (add_param (operation_defaults spec))
                      (operation_args spec) self1));
            calls := (calls s ++ [GetArgSpec (ObjFunction fn)])
                     ++ [GetDoc (ObjFunction fn)] |})
    end.
Proof.
  unfold _parse_operation, _parse_args, bind, on_self, record_call, modify,
    lift_option, ret, raise. simpl.
  destruct (fn_argspec fn) as [spec|]; reflexivity.
Qed.

Lemma _parse_operation_function_func (fn : pyfunction) (s : state) :
  func (self (snd (_parse_operation (ObjFunction fn) s)))
  = Some (ObjFunction fn).
Proof.
  rewrite _parse_operation_function. cbv zeta.
  destruct (fn_argspec fn) as [spec|]; simpl; [|reflexivity].
  now rewrite func_fold_add_param.
Qed.

Lemma _parse_operation_function_count (fn : pyfunction) (s : state) :
  parse_count (calls (snd (_parse_operation (ObjFunction fn) s)))
  = S (parse_count (calls s)).
Proof.
  rewrite _parse_operation_function. cbv zeta. unfold parse_count.
  destruct (fn_argspec fn) as [spec|]; simpl;
    rewrite ?filter_app, ?length_app; simpl; lia.
Qed.

(** Once [self.func] holds a function, a call runs it and changes nothing. *)
Lemma operation_call_built (s : state) (fn : pyfunction) (a : callargs) :
  func (self s) = Some (ObjFunction fn) ->
  __call__ run a s = (run (ObjFunction fn) a, s).
Proof.
  intros H. unfold __call__, bind, gets, built, lift_result, call_func.
  rewrite H. reflexivity.
Qed.

Lemma operation_wrapper_built (s : state) (fn : pyfunction) (a : callargs) :
  func (self s) = Some (ObjFunction fn) ->
  __wrapper__ run a s = (run (ObjFunction fn) a, s).
Proof.
  intros H. unfold __wrapper__, bind, gets, lift_result, call_func.
  rewrite H. reflexivity.
Qed.

Lemma first_call_state (fn : pyfunction) nickname kwds rest kw :
  snd (__call__ run {| pos := ObjFunction fn :: rest; kw := kw |}
                (new_operation nickname kwds))
  = snd (_parse_operation (ObjFunction fn) (new_operation nickname kwds)).
Proof.
  unfold __call__, bind, gets, ret, new_operation. simpl.
  destruct (_parse_operation (ObjFunction fn) _) as [[u|e] s1]; reflexivity.
Qed.

End OperationFacts.

(** ** Claims on the operation decorator *)

Section OperationClaims.
Import operation.

(** C1, as the claim states it, fails: the decorator applied to [ping]
    returns the wrapper; applied again, to that wrapper or to [ping]
    itself, it calls [ping] on that argument and returns its result,
    [None], which is not the wrapper. *)
Lemma redecoration_counterexample :
  let f := ObjFunction ping in
  let first := __call__ returns_none (call_with f) (new_operation PyNone []) in
  fst first = Ok (ObjWrapper f) /\
  fst (__call__ returns_none (call_with (ObjWrapper f)) (snd first))
  = Ok (ObjValue PyNone) /\
  fst (__call__ returns_none (call_with f) (snd first))
  = Ok (ObjValue PyNone) /\
  ObjValue PyNone <> ObjWrapper f.
Proof. repeat split; discriminate. Qed.

(** C1, amended: after a new decorator was applied to a function [f],
    applying the same decorator again, to any arguments, finds
    [self.func] set and returns the result of calling [f] on those
    arguments, not the wrapper; the instance with its descriptor stays as
    the first application left it, and over the whole run the signature
    of [f] was read exactly once. *)
Theorem redecoration_forwards_to_func
        (run : pyobj -> callargs -> result pyobj) (fn : pyfunction)
        (nickname : pyvalue) (kwds : list (string * pyobj))
        (rest : list pyobj) (kw : list (string * pyobj))
        (later : list callargs) :
  let f := ObjFunction fn in
  let first := __call__ run {| pos := f :: rest; kw := kw |}
                        (new_operation nickname kwds) in
  (forall a, __call__ run a (snd first) = (run f a, snd first)) /\
  call_many run later (snd first) = snd first /\
  parse_count (calls (call_many run later (snd first))) = 1.
Proof.
  cbv zeta.
  assert (Hf : func (self (snd (__call__ run {| pos := ObjFunction fn :: rest;
                                               kw := kw |}
                                         (new_operation nickname kwds))))
               = Some (ObjFunction fn)).
  { rewrite first_call_state. apply _parse_operation_function_func. }
  assert (Hmany : call_many run later
                    (snd (__call__ run {| pos := ObjFunction fn :: rest;
                                          kw := kw |}
                                   (new_operation nickname kwds)))
                  = snd (__call__ run {| pos := ObjFunction fn :: rest;
                                         kw := kw |}
                                  (new_operation nickname kwds))).
  { induction later as [|a later IH]; [reflexivity|].
    unfold call_many in *. simpl.
    rewrite (operation_call_built run _ a Hf). exact IH. }
  split; [|split].
  - intros a. now apply operation_call_built.
  - exact Hmany.
  - rewrite Hmany, first_call_state, _parse_operation_function_count.
    reflexivity.
Qed.

(** C5: the wrapper that a new decorator returns for a function [f],
    called on any arguments, gives what [f] gives on them, value or
    exception, and changes nothing; the descriptor is read under
    [rest_api] without a call of [f], and is the same whatever [f] does
    when called. *)
Theorem wrapper_is_transparent
        (run run' : pyobj -> callargs -> result pyobj) (fn : pyfunction)
        (spec : ArgSpec.t) (nickname : pyvalue)
        (kwds : list (string * pyobj))
        (rest : list pyobj) (kw : list (string * pyobj)) :
  fn_argspec fn = Some spec ->
  let f := ObjFunction fn in
  let r := __call__ run {| pos := f :: rest; kw := kw |}
                    (new_operation nickname kwds) in
  fst r = Ok (ObjWrapper f) /\
  (forall in_args, __wrapper__ run in_args (snd r) = (run f in_args, snd r)) /\
  rest_api (snd r) = (Ok (self (snd r)), snd r) /\
  snd (__call__ run' {| pos := f :: rest; kw := kw |}
                (new_operation nickname kwds))
  = snd r.
Proof.
  intros Hspec. cbv zeta. split; [|split; [|split]].
  - unfold __call__, bind, gets, ret, new_operation. simpl.
    rewrite _parse_operation_function, Hspec. reflexivity.
  - intros in_args. apply operation_wrapper_built.
    rewrite first_call_state. apply _parse_operation_function_func.
  - reflexivity.
  - now rewrite !first_call_state.
Qed.

Lemma wrapper_is_transparent_witness :
  let f := ObjFunction ping in
  let r := __call__ returns_none (call_with f) (new_operation PyNone []) in
  fst r = Ok (ObjWrapper f) /\
  __wrapper__ returns_none (call_with (ObjValue (PyInt 7))) (snd r)
  = (Ok (ObjValue PyNone), snd r).
Proof.
  cbv zeta.
  destruct (@wrapper_is_transparent
              returns_none returns_none ping _ PyNone [] [] [] eq_refl)
    as (H1 & H2 & _).
  split; [exact H1|].
  exact (H2 (call_with (ObjValue (PyInt 7)))).
Defined.

End OperationClaims.

(** * Further properties *)

(** ** The inline span extractor *)

Section ExtractorProperties.
Import EpytextParser.

Lemma handle_tag p e : tag (handle p e) = tag p.
Proof.
  destruct e; simpl;
    [unfold handle_starttag|unfold handle_endtag|unfold handle_data];
    match goal with |- context [if ?b then _ else _] => destruct b end;
    reflexivity.
Qed.

(** X1: the handler calls for the opening and the closing of any other
    element leave the parser as it is: after a sequence of handler calls
    the extractor returns what it returns after the same sequence with
    those calls left out, the chunks of text being delivered as they
    were. *)
Theorem extractor_ignores_other_elements (t : string) (evs : list html_event) :
  get_data (feed evs (__init__ t))
  = get_data (feed (filter (concerns t) evs) (__init__ t)).
Proof.
  assert (G : forall p, feed evs p = feed (filter (concerns (tag p)) evs) p).
  { induction evs as [|e evs IH]; intros p; [reflexivity|].
    change (feed (e :: evs) p) with (feed evs (handle p e)).
    cbn [filter]. destruct (concerns (tag p) e) eqn:E.
    - change (feed (e :: filter (concerns (tag p)) evs) p)
        with (feed (filter (concerns (tag p)) evs) (handle p e)).
      rewrite IH, handle_tag. reflexivity.
    - assert (handle p e = p) as ->.
      { destruct e as [tg at'|tg|d]; simpl in *; try discriminate.
        - unfold handle_starttag. now rewrite E.
        - unfold handle_endtag. now rewrite E. }
      apply IH. }
  now rewrite (G (__init__ t)).
Qed.

Lemma no_end_snoc t l e :
  no_end t l = true -> is_end t e = false -> no_end t (l ++ [e]) = true.
Proof.
  intros Hl He. unfold no_end in *. rewrite forallb_app, Hl. simpl.
  now rewrite He.
Qed.

(** What is known of the parser after a prefix of the body. *)
Lemma feed_invariant (t : string) (l : list html_event) :
  let p := feed l (__init__ t) in
  (a_text p = true ->
   exists pre attr mid,
     l = pre ++ StartTag t attr :: mid /\ no_end t mid = true) /\
  (forall d, data p = PyStr d ->
   exists pre attr mid post,
     l = pre ++ StartTag t attr :: mid ++ Data d :: post /\
     no_end t mid = true).
Proof.
  cbv zeta. induction l as [|e l IH] using rev_ind.
  - split; simpl; [discriminate|]. intros d H. discriminate.
  - destruct IH as [IHa IHd]. rewrite feed_app.
    set (p := feed l (__init__ t)) in *.
    assert (Ht : tag p = t) by (unfold p; apply feed_tag).
    change (feed [e] p) with (handle p e).
    assert (Hkeep : forall d, data p = PyStr d ->
              exists pre attr mid post,
                l ++ [e] = pre ++ StartTag t attr :: mid ++ Data d :: post /\
                no_end t mid = true).
    { intros d Hd. destruct (IHd d Hd) as (pre & attr & mid & post & -> & Hm).
      exists pre, attr, mid, (post ++ [e]). split; [|exact Hm].
      rewrite <- !app_assoc. simpl. rewrite <- app_assoc. reflexivity. }
    assert (Hopen : is_end t e = false -> a_text p = true ->
              exists pre attr mid,
                l ++ [e] = pre ++ StartTag t attr :: mid /\
                no_end t mid = true).
    { intros He Ha. destruct (IHa Ha) as (pre & attr & mid & -> & Hm).
      exists pre, attr, (mid ++ [e]). split.
      - rewrite <- app_assoc. reflexivity.
      - now apply no_end_snoc. }
    destruct e as [tg at'|tg|d0]; simpl.
    + unfold handle_starttag. rewrite Ht.
      destruct (String.eqb tg t) eqn:E; simpl.
      * apply String.eqb_eq in E. subst tg. split; [|exact Hkeep].
        intros _. exists l, at', []. split; reflexivity.
      * split; [|exact Hkeep]. now apply Hopen.
    + unfold handle_endtag. rewrite Ht.
      destruct (String.eqb tg t) eqn:E; simpl.
      * split; [discriminate|exact Hkeep].
      * split; [|exact Hkeep]. apply Hopen. simpl. exact E.
    + unfold handle_data. destruct (a_text p) eqn:Ha; simpl.
      * split; [intros _; now apply Hopen|].
        intros d [= <-].
        destruct (IHa eq_refl) as (pre & attr & mid & -> & Hm).
        exists pre, attr, mid, []. split; [|exact Hm].
        rewrite <- app_assoc. reflexivity.
      * split; [|exact Hkeep]. rewrite Ha. discriminate.
Qed.

(** X2: the text that the extractor returns is a chunk of text of the
    body that comes after an opening of the element, with no closing of
    the element in between: text outside the element is never returned. *)
Theorem extractor_text_is_inside_element
        (t d : string) (evs : list html_event) :
  get_data (feed evs (__init__ t)) = PyStr d ->
  exists pre attr mid post,
    evs = pre ++ StartTag t attr :: mid ++ Data d :: post /\
    no_end t mid = true.
Proof.
  intros H. exact (proj2 (feed_invariant t evs) d H).
Qed.

Lemma extractor_text_is_inside_element_witness :
  exists pre attr mid post,
    markup body_dict = pre ++ StartTag "code" attr :: mid ++ Data "dict" :: post
    /\ no_end "code" mid = true.
Proof.
  exact (@extractor_text_is_inside_element
           "code" "dict" (markup body_dict) eq_refl).
Defined.

End ExtractorProperties.

(** ** Documents dispatched field by field *)

Section DocumentFacts.
Import DocParser.

Lemma with_params_twice d1 d2 self :
  with_params d2 (with_params d1 self) = with_params d2 self.
Proof. reflexivity. Qed.

Lemma set_set (K V : Type) (eq_dec : forall a b : K, {a = b} + {a <> b})
      (k : K) (v1 v2 : V) (d : OrderedDict.t K V) :
  OrderedDict.set eq_dec k v2 (OrderedDict.set eq_dec k v1 d)
  = OrderedDict.set eq_dec k v2 d.
Proof.
  induction d as [|[k0 v0] d IH]; simpl.
  - destruct (eq_dec k k); [reflexivity|congruence].
  - destruct (eq_dec k k0) as [E|N]; simpl.
    + destruct (eq_dec k k0); [reflexivity|contradiction].
    + destruct (eq_dec k k0); [contradiction|]. now rewrite IH.
Qed.

Lemma keys_set (K V : Type) (eq_dec : forall a b : K, {a = b} + {a <> b})
      (k : K) (v : V) (d : OrderedDict.t K V) :
  OrderedDict.keys (OrderedDict.set eq_dec k v d)
  = match OrderedDict.get eq_dec k d with
    | Some _ => OrderedDict.keys d
    | None => OrderedDict.keys d ++ [k]
    end.
Proof.
  unfold OrderedDict.keys. induction d as [|[k0 v0] d IH]; simpl.
  - reflexivity.
  - destruct (eq_dec k k0) as [E|N]; simpl; [reflexivity|].
    rewrite IH. destruct (OrderedDict.get eq_dec k d); reflexivity.
Qed.

(** Each parameter tag is one assignment to the entry of its name. *)
Lemma _parse_param_as_set x b self :
  _parse_param x b self
  = with_params
      (OrderedDict.set arg_eq_dec x
         (param_update x (_get_body b) (param_entry x self)) (params self))
      self.
Proof.
  unfold _parse_param. cbv zeta. cbn [params with_params].
  rewrite get_setdefault_update_same. fold (param_entry x self).
  cbn [Param.paramType].
  unfold OrderedDict.setdefault_update, param_update, param_entry.
  destruct (OrderedDict.get arg_eq_dec x (params self)) as [e|];
    [destruct (Param.paramType e)|]; cbn [Param.paramType Param.empty];
    rewrite ?with_params_twice, ?set_set; reflexivity.
Qed.

Lemma _parse_type_as_set x b self :
  _parse_type x b self
  = with_params
      (OrderedDict.set arg_eq_dec x
         (type_update x (_get_body b) (param_entry x self)) (params self))
      self.
Proof.
  unfold _parse_type, OrderedDict.setdefault_update, param_entry. cbv zeta.
  destruct (OrderedDict.get arg_eq_dec x (params self)); reflexivity.
Qed.

Lemma _parse_in_as_set x b self :
  _parse_in x b self
  = with_params
      (OrderedDict.set arg_eq_dec x
         (in_update x (_get_body b) (param_entry x self)) (params self))
      self.
Proof.
  unfold _parse_in, OrderedDict.setdefault_update, param_entry. cbv zeta.
  destruct (OrderedDict.get arg_eq_dec x (params self)); reflexivity.
Qed.

Lemma _parse_required_as_set x b self :
  _parse_required x b self
  = with_params
      (OrderedDict.set arg_eq_dec x
         (required_update x (_get_body b) (param_entry x self)) (params self))
      self.
Proof.
  unfold _parse_required, OrderedDict.setdefault_update, param_entry.
  cbv zeta.
  destruct (OrderedDict.get arg_eq_dec x (params self)); reflexivity.
Qed.

Lemma param_entry_with_set x e self :
  param_entry x (with_params (OrderedDict.set arg_eq_dec x e (params self)) self)
  = e.
Proof.
  unfold param_entry. cbn [params with_params]. now rewrite get_set_same.
Qed.

End DocumentFacts.

(** ** Properties of the parameter tags *)

Section ParameterTagProperties.
Import DocParser.

Ltac as_sets :=
  rewrite ?_parse_param_as_set, ?_parse_type_as_set, ?_parse_in_as_set,
    ?_parse_required_as_set;
  rewrite ?param_entry_with_set; rewrite ?with_params_twice;
  cbn [params with_params]; rewrite ?set_set;
  unfold param_update, type_update, in_update, required_update;
  cbn [Param.name Param.description Param.dataType Param.paramType
       Param.required].

(** X3: for one parameter name, the tags [param], [type], [in] and
    [required] can come in any order: two fields of different tags among
    them, dispatched one after the other, leave the same accumulator
    whichever comes first.  In particular an [in] field fixes the
    [paramType] whether it stands before or after the [param] field. *)
Theorem parameter_tags_commute
        (self : t) (x : option string)
        (bp bt bi br : option ParsedDocstring) :
  _parse_in x bi (_parse_param x bp self)
  = _parse_param x bp (_parse_in x bi self) /\
  _parse_type x bt (_parse_param x bp self)
  = _parse_param x bp (_parse_type x bt self) /\
  _parse_required x br (_parse_param x bp self)
  = _parse_param x bp (_parse_required x br self) /\
  _parse_in x bi (_parse_type x bt self)
  = _parse_type x bt (_parse_in x bi self) /\
  _parse_required x br (_parse_type x bt self)
  = _parse_type x bt (_parse_required x br self) /\
  _parse_required x br (_parse_in x bi self)
  = _parse_in x bi (_parse_required x br self).
Proof.
  repeat split; as_sets; try reflexivity;
    destruct (Param.paramType (param_entry x self)); reflexivity.
Qed.

(** X4: a field with one of the tags [param], [type], [in], [required]
    for the name [x] stores [name = x] in the entry of [x], keeps the
    entry of every other name, and keeps the properties, the response
    classes, the response messages, the notes and the summary. *)
Theorem parameter_tag_frame
        (self : t) (tg : string) (x : option string)
        (b : option ParsedDocstring) :
  In tg param_tags ->
  let self' := dispatch self {| Field.tag := tg; Field.arg := x;
                                Field.body := b |} in
  Param.name (param_entry x self') = Some (of_arg x) /\
  (forall y, y <> x ->
     OrderedDict.get arg_eq_dec y (params self')
     = OrderedDict.get arg_eq_dec y (params self)) /\
  properties self' = properties self /\
  responseClasses self' = responseClasses self /\
  responseMessages self' = responseMessages self /\
  notes self' = notes self /\
  summary self' = summary self.
Proof.
  intros Htg. cbv zeta. unfold dispatch.
  cbn [Field.tag Field.arg Field.body].
  unfold param_tags in Htg. simpl in Htg.
  destruct Htg as [<-|[<-|[<-|[<-|[]]]]];
    [change (_get_parser "param") with _parse_param
    |change (_get_parser "type") with _parse_type
    |change (_get_parser "in") with _parse_in
    |change (_get_parser "required") with _parse_required];
    rewrite ?_parse_param_as_set, ?_parse_type_as_set, ?_parse_in_as_set,
      ?_parse_required_as_set;
    rewrite param_entry_with_set; cbn [params with_params];
    (repeat split; try reflexivity;
     intros y Hy; now apply get_set_other).
Qed.

Lemma parameter_tag_frame_witness :
  let self' := dispatch __init__ (field "type" "x" "int") in
  Param.name (param_entry (Some "x") self') = Some (PyStr "x") /\
  properties self' = [].
Proof.
  destruct (@parameter_tag_frame __init__ "type" (Some "x")
              (Some (plain "int")) (or_intror (or_introl eq_refl)))
    as (H1 & _ & H2 & _).
  split; [exact H1|exact H2].
Defined.

End ParameterTagProperties.

(** ** Properties of whole documents *)

Section DocumentProperties.
Import DocParser.

Lemma unknown_tag_neq tg lit :
  ~ In tg known_tags -> In lit known_tags -> String.eqb tg lit = false.
Proof.
  intros Hn Hl. apply String.eqb_neq. intros ->. contradiction.
Qed.

Ltac known := unfold known_tags; simpl; tauto.

Lemma dispatch_response_pairs self f :
  map response_pair (responseMessages (dispatch self f))
  = map response_pair (responseMessages self)
    ++ (if is_return_field f then [code_and_message f] else []).
Proof.
  destruct f as [tg a b]. unfold dispatch, is_return_field, code_and_message.
  cbn [Field.tag Field.arg Field.body].
  pattern tg, (_get_parser tg). apply _get_parser_cases;
    try (cbn [String.eqb Ascii.eqb Bool.eqb orb];
         try rewrite _parse_param_frame; try rewrite _parse_ptype_frame;
         cbn [responseMessages with_params with_properties];
         now rewrite app_nil_r).
  - unfold _parse_rtype. destruct (arg_truthy a); simpl; now rewrite app_nil_r.
  - unfold _parse_return. simpl. now rewrite map_app.
  - unfold _parse_return. simpl. now rewrite map_app.
  - intros tg' Hn.
    rewrite (unknown_tag_neq Hn) by known.
    rewrite (unknown_tag_neq Hn) by known.
    simpl. now rewrite app_nil_r.
Qed.

Lemma parse_response_pairs fields self :
  map response_pair (responseMessages (fold_left dispatch fields self))
  = map response_pair (responseMessages self)
    ++ map code_and_message (filter is_return_field fields).
Proof.
  revert self. induction fields as [|f fields IH]; intros self; simpl.
  - now rewrite app_nil_r.
  - rewrite IH, dispatch_response_pairs, <- app_assoc. f_equal.
    destruct (is_return_field f); reflexivity.
Qed.

(** X5: a document dispatched on a new accumulator leaves one response
    message for each [return] or [raise] field, in the order of the
    document and with repeated codes kept: the [code] is the argument of
    the field and the [message] the plain text of its body, stripped
    ([None] for a field without body). *)
Theorem responses_follow_return_fields (fields : docstring) :
  map response_pair
    (responseMessages (parse_docstring (Some fields) __init__))
  = map (fun f =>
           (Some (of_arg (Field.arg f)),
            Some (match Field.body f with
                  | Some b => PyStr (strip (to_plaintext b))
                  | None => PyNone
                  end)))
        (filter is_return_field fields).
Proof.
  unfold parse_docstring. rewrite parse_response_pairs.
  cbn [responseMessages __init__ map app].
  apply map_ext. intros f. unfold code_and_message, _get_body.
  reflexivity.
Qed.

Lemma responses_follow_return_fields_witness :
  map response_pair
    (responseMessages
       (parse_docstring
          (Some [field "return" "200" " OK "; field "param" "x" "text";
                 field "raise" "KeyError" "no such pet
"; field "return" "200" "again"])
          __init__))
  = [(Some (PyStr "200"), Some (PyStr "OK"));
     (Some (PyStr "KeyError"), Some (PyStr "no such pet"));
     (Some (PyStr "200"), Some (PyStr "again"))].
Proof.
  exact (responses_follow_return_fields
           [field "return" "200" " OK "; field "param" "x" "text";
            field "raise" "KeyError" "no such pet
"; field "return" "200" "again"]).
Defined.

Lemma dispatch_unknown self f :
  ~ In (Field.tag f) known_tags -> dispatch self f = self.
Proof.
  destruct f as [tg a b]. unfold dispatch.
  cbn [Field.tag Field.arg Field.body].
  pattern tg, (_get_parser tg). apply _get_parser_cases;
    try (intros H; exfalso; apply H; known).
  intros tg' _ _. reflexivity.
Qed.

(** X6: a document in which no field has one of the eleven tags with a
    handler leaves the accumulator as it was: tags without handler are
    passed over, whatever their argument and body. *)
Theorem unsupported_tags_change_nothing (fields : docstring) (self : t) :
  Forall (fun f => ~ In (Field.tag f) known_tags) fields ->
  parse_docstring (Some fields) self = self.
Proof.
  unfold parse_docstring. intros H. revert self.
  induction H as [|f fields Hf _ IH]; intros self; simpl.
  - reflexivity.
  - rewrite dispatch_unknown by exact Hf. apply IH.
Qed.

Lemma unsupported_tags_change_nothing_witness :
  parse_docstring
    (Some [field "author" "x" "serena"; field "see" "y" "the other one"])
    __init__
  = __init__.
Proof.
  apply unsupported_tags_change_nothing.
  repeat constructor; unfold known_tags; simpl; intuition discriminate.
Defined.

Lemma dispatch_notes self f :
  notes (dispatch self f)
  = if is_notes_field f
    then _sanitize_doc (_get_body (Field.body f))
    else notes self.
Proof.
  destruct f as [tg a b]. unfold dispatch, is_notes_field.
  cbn [Field.tag Field.arg Field.body].
  pattern tg, (_get_parser tg). apply _get_parser_cases;
    try (cbn [String.eqb Ascii.eqb Bool.eqb];
         try rewrite _parse_param_frame; try rewrite _parse_ptype_frame;
         reflexivity).
  - unfold _parse_rtype. destruct (arg_truthy a); reflexivity.
  - intros tg' Hn. rewrite (unknown_tag_neq Hn) by known. reflexivity.
Qed.

Lemma dispatch_summary self f :
  summary (dispatch self f)
  = if is_description_field f
    then _sanitize_doc (_get_body (Field.body f))
    else summary self.
Proof.
  destruct f as [tg a b]. unfold dispatch, is_description_field.
  cbn [Field.tag Field.arg Field.body].
  pattern tg, (_get_parser tg). apply _get_parser_cases;
    try (cbn [String.eqb Ascii.eqb Bool.eqb];
         try rewrite _parse_param_frame; try rewrite _parse_ptype_frame;
         reflexivity).
  - unfold _parse_rtype. destruct (arg_truthy a); reflexivity.
  - intros tg' Hn. rewrite (unknown_tag_neq Hn) by known. reflexivity.
Qed.

Lemma parse_notes_unchanged fields self :
  forallb (fun f => negb (is_notes_field f)) fields = true ->
  notes (fold_left dispatch fields self) = notes self.
Proof.
  revert self. induction fields as [|f fields IH]; intros self H; simpl in *.
  - reflexivity.
  - apply andb_true_iff in H as [Hf H]. rewrite IH by exact H.
    rewrite dispatch_notes. apply negb_true_iff in Hf. now rewrite Hf.
Qed.

Lemma parse_summary_unchanged fields self :
  forallb (fun f => negb (is_description_field f)) fields = true ->
  summary (fold_left dispatch fields self) = summary self.
Proof.
  revert self. induction fields as [|f fields IH]; intros self H; simpl in *.
  - reflexivity.
  - apply andb_true_iff in H as [Hf H]. rewrite IH by exact H.
    rewrite dispatch_summary. apply negb_true_iff in Hf. now rewrite Hf.
Qed.

(** X7: the notes of the accumulator are those of the last [notes] field
    of the document, and its summary the one of the last [description]
    field, each with its line breaks replaced; a document without such a
    field keeps the notes, or the summary, that were there. *)
Theorem last_notes_and_description_win
        (pre post : docstring) (f : Field.t) (self : t) :
  (is_notes_field f = true ->
   forallb (fun g => negb (is_notes_field g)) post = true ->
   notes (parse_docstring (Some (pre ++ f :: post)) self)
   = _sanitize_doc (_get_body (Field.body f))) /\
  (is_description_field f = true ->
   forallb (fun g => negb (is_description_field g)) post = true ->
   summary (parse_docstring (Some (pre ++ f :: post)) self)
   = _sanitize_doc (_get_body (Field.body f))) /\
  (forallb (fun g => negb (is_notes_field g)) post = true ->
   notes (parse_docstring (Some post) self) = notes self) /\
  (forallb (fun g => negb (is_description_field g)) post = true ->
   summary (parse_docstring (Some post) self) = summary self).
Proof.
  unfold parse_docstring. repeat split.
  - intros Hf Hpost. rewrite fold_left_app. simpl.
    rewrite parse_notes_unchanged by exact Hpost.
    now rewrite dispatch_notes, Hf.
  - intros Hf Hpost. rewrite fold_left_app. simpl.
    rewrite parse_summary_unchanged by exact Hpost.
    now rewrite dispatch_summary, Hf.
  - apply parse_notes_unchanged.
  - apply parse_summary_unchanged.
Qed.

Lemma last_notes_and_description_win_witness :
  notes (parse_docstring
           (Some ([field "notes" "" "first"]
                  ++ {| Field.tag := "notes"; Field.arg := None;
                        Field.body := Some (plain "two
lines") |}
                  :: [field "param" "x" "text"]))
           __init__)
  = PyStr "two lines".
Proof.
  exact (proj1 (@last_notes_and_description_win
                  [field "notes" "" "first"] [field "param" "x" "text"]
                  {| Field.tag := "notes"; Field.arg := None;
                     Field.body := Some (plain "two
lines") |}
                  __init__) eq_refl eq_refl).
Defined.

Lemma replace_newlines_no_newline s : no_newline (replace_newlines s) = true.
Proof.
  induction s as [|c s IH]; simpl; [reflexivity|].
  rewrite IH, andb_true_r.
  destruct (Nat.eqb (nat_of_ascii c) 10) eqn:E; [reflexivity|].
  now rewrite E.
Qed.

Lemma _sanitize_doc_get_body_one_line b :
  one_line (_sanitize_doc (_get_body b)) = true.
Proof.
  destruct b as [b|]; [|reflexivity]. unfold _get_body, _sanitize_doc.
  destruct (truthy (PyStr (strip (to_plaintext b)))) eqn:E.
  - simpl. apply replace_newlines_no_newline.
  - simpl in E. apply negb_false_iff, String.eqb_eq in E. now rewrite E.
Qed.

(** X8: whatever the document, the notes and the summary that it leaves
    on a new accumulator are [None] or a string without line break. *)
Theorem notes_and_summary_are_one_line (text : option docstring) :
  one_line (notes (parse_docstring text __init__)) = true /\
  one_line (summary (parse_docstring text __init__)) = true.
Proof.
  destruct text as [fields|]; [|split; reflexivity].
  unfold parse_docstring.
  assert (G : forall self,
             one_line (notes self) = true ->
             one_line (summary self) = true ->
             one_line (notes (fold_left dispatch fields self)) = true /\
             one_line (summary (fold_left dispatch fields self)) = true).
  { induction fields as [|f fields IH]; intros self Hn Hs; simpl.
    - now split.
    - apply IH.
      + rewrite dispatch_notes. destruct (is_notes_field f); [|exact Hn].
        apply _sanitize_doc_get_body_one_line.
      + rewrite dispatch_summary.
        destruct (is_description_field f); [|exact Hs].
        apply _sanitize_doc_get_body_one_line. }
  apply G; reflexivity.
Qed.

Lemma recorded_rtype_from_none acc c fields :
  forallb (fun f => negb (records_rtype c f)) fields = true ->
  recorded_rtype_from acc c fields = acc.
Proof.
  revert acc. induction fields as [|f fields IH]; intros acc H; simpl in *.
  - reflexivity.
  - apply andb_true_iff in H as [Hf H]. apply negb_true_iff in Hf.
    rewrite Hf. now apply IH.
Qed.

(** X9: when several [rtype] fields name the same code, the last one
    before the [return] or [raise] field counts: with an [rtype] field for
    a code [c] that is not empty, of a body that is not empty, followed by
    fields among which none records under [c], the message that the next
    [return] or [raise] field for [c] appends carries that body as
    [responseModel], whatever came before and whatever the accumulator
    held. *)
Theorem latest_rtype_wins
        (pre mid post : docstring) (c tg : string)
        (b : ParsedDocstring) (body : option ParsedDocstring) (self : t) :
  c <> "" ->
  strip (to_plaintext b) <> "" ->
  tg = "return" \/ tg = "raise" ->
  forallb (fun f => negb (records_rtype (Some c) f)) mid = true ->
  In {| Response.code := Some (PyStr c);
        Response.message := Some (_get_body body);
        Response.responseModel := Some (PyStr (strip (to_plaintext b))) |}
     (responseMessages
        (parse_docstring
           (Some (pre
                  ++ {| Field.tag := "rtype"; Field.arg := Some c;
                        Field.body := Some b |}
                  :: mid
                  ++ {| Field.tag := tg; Field.arg := Some c;
                        Field.body := body |}
                  :: post))
           self)).
Proof.
  intros Hc Hb Htg Hmid. unfold parse_docstring.
  rewrite fold_left_app. simpl fold_left. rewrite fold_left_app.
  simpl fold_left.
  set (s1 := fold_left dispatch pre self).
  set (s2 := fold_left dispatch mid
               (dispatch s1 {| Field.tag := "rtype"; Field.arg := Some c;
                               Field.body := Some b |})).
  assert (Hget : OrderedDict.get arg_eq_dec (Some c) (responseClasses s2)
                 = Some (PyStr (strip (to_plaintext b)))).
  { unfold s2. rewrite parse_responseClasses.
    rewrite recorded_rtype_from_none by exact Hmid.
    rewrite dispatch_responseClasses. unfold records_rtype, arg_truthy.
    cbn [Field.tag Field.arg Field.body of_arg truthy].
    apply String.eqb_neq in Hc. rewrite Hc.
    destruct (arg_eq_dec (Some c) (Some c)); [reflexivity|contradiction]. }
  destruct (parse_responseMessages post
              (dispatch s2 {| Field.tag := tg; Field.arg := Some c;
                              Field.body := body |})) as [l ->].
  apply in_or_app. left.
  assert (Hd : dispatch s2 {| Field.tag := tg; Field.arg := Some c;
                              Field.body := body |}
               = _parse_return (Some c) body s2).
  { unfold dispatch. simpl. destruct Htg as [-> | ->]; reflexivity. }
  rewrite Hd. unfold _parse_return. cbv zeta. cbn [responseMessages
    with_responseMessages]. apply in_or_app. right. left.
  rewrite Hget. cbn [of_arg truthy].
  apply String.eqb_neq in Hb. now rewrite Hb.
Qed.

Lemma latest_rtype_wins_witness :
  In {| Response.code := Some (PyStr "200");
        Response.message := Some (PyStr "OK");
        Response.responseModel := Some (PyStr "Gadget") |}
     (responseMessages
        (parse_docstring
           (Some ([field "rtype" "200" "Widget"]
                  ++ field "rtype" "200" "Gadget"
                  :: [field "param" "x" "text"]
                  ++ field "return" "200" "OK"
                  :: []))
           __init__)).
Proof.
  apply (@latest_rtype_wins
           [field "rtype" "200" "Widget"] [field "param" "x" "text"] []
           "200" "return" (plain "Gadget") (Some (plain "OK")) __init__).
  - discriminate.
  - discriminate.
  - left. reflexivity.
  - reflexivity.
Defined.

Lemma property_entry_default_dispatch p self f :
  Property.default (property_entry p (dispatch self f))
  = Property.default (property_entry p self).
Proof.
  destruct f as [tg a b]. unfold dispatch.
  cbn [Field.tag Field.arg Field.body].
  pattern tg, (_get_parser tg). apply _get_parser_cases;
    try (try rewrite _parse_param_frame; reflexivity).
  - unfold _parse_rtype. destruct (arg_truthy a); reflexivity.
  - unfold _parse_property, property_entry. cbn [properties with_properties].
    destruct (arg_eq_dec p a) as [->|N].
    + rewrite get_setdefault_update_same.
      destruct (OrderedDict.get arg_eq_dec a (properties self)); reflexivity.
    + now rewrite get_setdefault_update_other.
  - unfold _parse_ptype, property_entry. cbv zeta.
    destruct (_parse_epytext_para "code" b); try destruct (py_eq _ _);
      try reflexivity; cbn [properties with_properties];
      (destruct (arg_eq_dec p a) as [->|N];
       [rewrite get_setdefault_update_same;
        destruct (OrderedDict.get arg_eq_dec a (properties self)); reflexivity
       |now rewrite get_setdefault_update_other]).
Qed.

(** X10: no field changes a [default]: after any document the [default]
    of every property is the one it had before, so the default value
    seeded from a constructor is kept and a property that the
    documentation adds has none. *)
Theorem documentation_keeps_defaults
        (text : option docstring) (self : t) (p : option string) :
  Property.default (property_entry p (parse_docstring text self))
  = Property.default (property_entry p self).
Proof.
  destruct text as [fields|]; [|reflexivity]. unfold parse_docstring.
  revert self. induction fields as [|f fields IH]; intros self; simpl.
  - reflexivity.
  - now rewrite IH, property_entry_default_dispatch.
Qed.

Lemma names_match_dispatch self f :
  names_match (params self) -> names_match (params (dispatch self f)).
Proof.
  intros H. destruct f as [tg a b]. unfold dispatch.
  cbn [Field.tag Field.arg Field.body].
  assert (G : forall e, Param.name e = Some (of_arg a) ->
                names_match (OrderedDict.set arg_eq_dec a e (params self))).
  { intros e He k e' Hk. destruct (arg_eq_dec k a) as [->|N].
    - rewrite get_set_same in Hk. congruence.
    - rewrite get_set_other in Hk by exact N. now apply H. }
  pattern tg, (_get_parser tg). apply _get_parser_cases;
    try exact H;
    try (rewrite ?_parse_param_as_set, ?_parse_type_as_set,
           ?_parse_in_as_set, ?_parse_required_as_set;
         cbn [params with_params]; apply G; reflexivity).
  - unfold _parse_rtype. destruct (arg_truthy a); exact H.
  - now rewrite _parse_ptype_frame.
  - intros tg' _. exact H.
Qed.

Lemma names_match_parse (text : option docstring) (self : t) :
  names_match (params self) ->
  names_match (params (parse_docstring text self)).
Proof.
  destruct text as [fields|]; [|easy]. unfold parse_docstring.
  revert self. induction fields as [|f fields IH]; intros self H; simpl.
  - exact H.
  - apply IH. now apply names_match_dispatch.
Qed.

(** X11: the entry of a parameter carries its key as [name]: when this
    holds of the accumulator, it holds after any document; it holds of a
    new accumulator. *)
Theorem parameter_names_match_keys (text : option docstring) (self : t) :
  names_match (params self) ->
  names_match (params (parse_docstring text self)).
Proof.
  destruct text as [fields|]; [|easy]. unfold parse_docstring.
  revert self. induction fields as [|f fields IH]; intros self H; simpl.
  - exact H.
  - apply IH. now apply names_match_dispatch.
Qed.

Lemma parameter_names_match_keys_witness :
  names_match
    (params (parse_docstring
               (Some [field "in" "x" "body"; field "param" "y" "text"])
               __init__)).
Proof.
  apply parameter_names_match_keys. intros k e H. discriminate H.
Defined.

Lemma keys_dispatch self f :
  exists l,
    OrderedDict.keys (params (dispatch self f))
    = OrderedDict.keys (params self) ++ l.
Proof.
  destruct f as [tg a b]. unfold dispatch.
  cbn [Field.tag Field.arg Field.body].
  assert (G : forall e, exists l,
               OrderedDict.keys (OrderedDict.set arg_eq_dec a e (params self))
               = OrderedDict.keys (params self) ++ l).
  { intros e. rewrite keys_set.
    destruct (OrderedDict.get arg_eq_dec a (params self)).
    - exists []. now rewrite app_nil_r.
    - now exists [a]. }
  pattern tg, (_get_parser tg). apply _get_parser_cases;
    try (exists []; now rewrite app_nil_r);
    try (rewrite ?_parse_param_as_set, ?_parse_type_as_set,
           ?_parse_in_as_set, ?_parse_required_as_set;
         cbn [params with_params]; apply G).
  - unfold _parse_rtype. destruct (arg_truthy a);
      exists []; now rewrite app_nil_r.
  - rewrite _parse_ptype_frame. exists []. now rewrite app_nil_r.
Qed.

Lemma keys_parse (text : option docstring) (self : t) :
  exists l,
    OrderedDict.keys (params (parse_docstring text self))
    = OrderedDict.keys (params self) ++ l.
Proof.
  destruct text as [fields|]; [|exists []; now rewrite app_nil_r].
  unfold parse_docstring.
  revert self. induction fields as [|f fields IH]; intros self; simpl.
  - exists []. now rewrite app_nil_r.
  - destruct (IH (dispatch self f)) as [l Hl].
    destruct (keys_dispatch self f) as [l' Hl'].
    exists (l' ++ l). now rewrite Hl, Hl', app_assoc.
Qed.

Lemma get_none_key_in (V : Type) (k : option string)
      (d : OrderedDict.t (option string) V) :
  key_in k (OrderedDict.keys d)
  = match OrderedDict.get arg_eq_dec k d with
    | Some _ => true
    | None => false
    end.
Proof.
  unfold key_in, OrderedDict.keys.
  induction d as [|[k0 v0] d IH]; [reflexivity|].
  cbn [map fst existsb OrderedDict.get].
  destruct (arg_eq_dec k k0); [reflexivity|exact IH].
Qed.

Lemma keys_dispatch_exact self f :
  OrderedDict.keys (params (dispatch self f))
  = mention (OrderedDict.keys (params self)) f.
Proof.
  destruct f as [tg a b]. unfold dispatch, mention.
  cbn [Field.tag Field.arg Field.body].
  assert (G : forall e,
             OrderedDict.keys (OrderedDict.set arg_eq_dec a e (params self))
             = if negb (key_in a (OrderedDict.keys (params self)))
               then OrderedDict.keys (params self) ++ [a]
               else OrderedDict.keys (params self)).
  { intros e. rewrite keys_set, get_none_key_in.
    destruct (OrderedDict.get arg_eq_dec a (params self)); reflexivity. }
  pattern tg, (_get_parser tg). apply _get_parser_cases;
    try (rewrite ?_parse_param_as_set, ?_parse_type_as_set,
           ?_parse_in_as_set, ?_parse_required_as_set;
         cbn [params with_params]; apply G);
    try reflexivity.
  - unfold _parse_rtype. destruct (arg_truthy a); reflexivity.
  - now rewrite _parse_ptype_frame.
  - intros tg' Hn. unfold is_param_tag, param_tags. cbn [existsb].
    rewrite !(unknown_tag_neq Hn) by known. reflexivity.
Qed.

(** X12: the parameters keep the order in which their names first came:
    after any document the keys of [params] are the keys before, in the
    same order, followed by the names that the [param], [type], [in] and
    [required] fields of the document bring, each once, in the order in
    which the document first mentions them; the other fields bring no
    key. *)
Theorem parameter_order_is_first_mention
        (fields : docstring) (self : t) :
  OrderedDict.keys (params (parse_docstring (Some fields) self))
  = first_mentions (OrderedDict.keys (params self)) fields.
Proof.
  unfold parse_docstring, first_mentions.
  revert self. induction fields as [|f fields IH]; intros self; simpl.
  - reflexivity.
  - now rewrite IH, keys_dispatch_exact.
Qed.

Lemma parameter_order_is_first_mention_witness :
  OrderedDict.keys
    (params
       (parse_docstring
          (Some [field "in" "x" "body"; field "return" "200" "OK";
                 field "param" "y" "text"; field "param" "x" "again";
                 field "property" "p" "a property"; field "type" "z" "int";
                 field "required" "y" "false"])
          (with_params [(Some "w", path_seed "w" true)] __init__)))
  = [Some "w"; Some "x"; Some "y"; Some "z"].
Proof.
  exact (parameter_order_is_first_mention
           [field "in" "x" "body"; field "return" "200" "OK";
            field "param" "y" "text"; field "param" "x" "again";
            field "property" "p" "a property"; field "type" "z" "int";
            field "required" "y" "false"]
           (with_params [(Some "w", path_seed "w" true)] __init__)).
Defined.

End DocumentProperties.

(** ** Properties of the operation decorator *)

Section OperationProperties.
Import operation.
Variable run : pyobj -> callargs -> result pyobj.

Lemma add_param_absent (defaults : list string) (self : t) (a : string) :
  OrderedDict.get arg_eq_dec (Some a) (DocParser.params (doc self)) = None ->
  add_param defaults self a
  = with_doc
      (fun d =>
         DocParser.with_params
           (DocParser.params d
            ++ [(Some a, path_seed a (negb (name_in a defaults)))]) d)
      self.
Proof.
  intros H. unfold add_param, with_doc. simpl.
  now rewrite (setdefault_absent arg_eq_dec) by exact H.
Qed.

Lemma fold_add_param (defaults l : list string) (self : t) :
  NoDup l ->
  (forall a, In a l ->
     OrderedDict.get arg_eq_dec (Some a) (DocParser.params (doc self)) = None) ->
  fold_left (add_param defaults) l self
  = with_doc
      (fun d =>
         DocParser.with_params
           (DocParser.params d
            ++ map (fun a => (Some a, path_seed a (negb (name_in a defaults))))
                 l) d)
      self.
Proof.
  revert self. induction l as [|a l IH]; intros self Hnd Hfresh.
  - destruct self as [[] ? ? ? ? ?].
    unfold with_doc, DocParser.with_params. simpl. now rewrite !app_nil_r.
  - inversion Hnd as [|? ? Hna Hnd']; subst. simpl fold_left.
    rewrite add_param_absent by (apply Hfresh; now left).
    rewrite IH; [|assumption|].
    + destruct self as [[] ? ? ? ? ?].
      unfold with_doc, DocParser.with_params. simpl.
      now rewrite <- !app_assoc.
    + intros a' Ha'. unfold with_doc. simpl.
      rewrite get_app_absent by (apply Hfresh; now right).
      cbn [OrderedDict.get].
      destruct (arg_eq_dec (Some a') (Some a)) as [E|N]; [|reflexivity].
      assert (a' = a) by congruence. subst a'. contradiction.
Qed.

Lemma name_in_In x l : name_in x l = true <-> In x l.
Proof.
  unfold name_in. rewrite existsb_exists. split.
  - intros (y & Hy & E). apply String.eqb_eq in E. now subst.
  - intros H. exists x. split; [exact H|apply String.eqb_refl].
Qed.

Lemma operation_defaults_exact (spec : ArgSpec.t) (front back : list string) :
  operation_args spec = front ++ back ->
  length back = length (tuple_or_empty (ArgSpec.defaults spec)) ->
  operation_defaults spec = back.
Proof.
  intros Ha Hlen. unfold operation_defaults. cbv zeta. rewrite Ha.
  destruct (tuple_or_empty (ArgSpec.defaults spec)) as [|v vs] eqn:E.
  - destruct back; [reflexivity|discriminate].
  - unfold slice_last. rewrite <- Hlen.
    destruct back as [|b0 back']; [discriminate|].
    cbn [length Nat.eqb]. rewrite length_app. cbn [length].
    replace (length front + S (length back') - S (length back'))
      with (length front + 0) by lia.
    rewrite skipn_app, Nat.add_0_r, skipn_all.
    replace (length front - length front) with 0 by lia. reflexivity.
Qed.

(** X13: for a function whose parameters, [self] left out, are
    [a1..an] followed by [d1..dk] with defaults (all of different names),
    a new decorator keeps these names as [func_args] and the name of the
    function as [__name__], and dispatches the documentation of the
    function on the accumulator in which every [ai] has the entry
    [{name, required: true, paramType: "path", dataType: "string"}] and
    every [dj] the same with [required: false], in the order of the
    signature.  Afterwards the keys of [params] are the names of the
    signature, in its order, followed by the names that only the
    documentation brings, and every entry carries its key as [name]. *)
Theorem operation_seeds_signature
        (fn : pyfunction) (spec : ArgSpec.t) (front back : list string)
        (nickname : pyvalue) (kwds : list (string * pyobj))
        (rest : list pyobj) (kw : list (string * pyobj)) :
  fn_argspec fn = Some spec ->
  operation_args spec = front ++ back ->
  length back = length (tuple_or_empty (ArgSpec.defaults spec)) ->
  NoDup (front ++ back) ->
  let s1 := snd (__call__ run {| pos := ObjFunction fn :: rest; kw := kw |}
                          (new_operation nickname kwds)) in
  let seeded :=
    DocParser.with_params
      (map (fun a => (Some a, path_seed a true)) front
       ++ map (fun a => (Some a, path_seed a false)) back)
      DocParser.__init__ in
  func_args (self s1) = front ++ back /\
  __name__ (self s1) = Some (fn_name fn) /\
  doc (self s1) = DocParser.parse_docstring (fn_doc fn) seeded /\
  (exists l,
     OrderedDict.keys (DocParser.params (doc (self s1)))
     = map Some (front ++ back) ++ l) /\
  names_match (DocParser.params (doc (self s1))).
Proof.
  intros Hspec Hargs Hlen Hnd. cbv zeta.
  assert (Hdoc :
    func_args (self (snd (__call__ run {| pos := ObjFunction fn :: rest;
                                          kw := kw |}
                                   (new_operation nickname kwds))))
    = front ++ back /\
    __name__ (self (snd (__call__ run {| pos := ObjFunction fn :: rest;
                                         kw := kw |}
                                  (new_operation nickname kwds))))
    = Some (fn_name fn) /\
    doc (self (snd (__call__ run {| pos := ObjFunction fn :: rest;
                                    kw := kw |}
                             (new_operation nickname kwds))))
    = DocParser.parse_docstring (fn_doc fn)
        (DocParser.with_params
           (map (fun a => (Some a, path_seed a true)) front
            ++ map (fun a => (Some a, path_seed a false)) back)
           DocParser.__init__)).
  { rewrite first_call_state, _parse_operation_function, Hspec. cbv zeta.
      rewrite (operation_defaults_exact spec front back Hargs Hlen), Hargs.
      cbn [snd self].
      rewrite fold_add_param by (auto; intros; reflexivity).
      unfold new_operation, __init__, with_doc, with_func_args, with_name,
        with_func. cbn.
      repeat split. f_equal. unfold DocParser.with_params, DocParser.__init__.
      cbn. f_equal. rewrite map_app. f_equal.
      - apply map_ext_in. intros a Ha. do 2 f_equal.
        destruct (name_in a back) eqn:E; [|reflexivity].
        apply name_in_In in E. exfalso. revert Hnd. clear - Ha E.
        induction front as [|x front IH]; [contradiction|].
        simpl. intros Hnd. inversion Hnd as [|? ? Hx Hnd']; subst.
        destruct Ha as [->|Ha]; [apply Hx, in_or_app; now right|now apply IH].
      - apply map_ext_in. intros a Ha. do 2 f_equal.
        apply name_in_In in Ha. now rewrite Ha. }
  destruct Hdoc as (H1 & H2 & H3).
  split; [exact H1|]. split; [exact H2|]. split; [exact H3|].
  rewrite H3. split.
  - destruct (keys_parse (fn_doc fn)
                (DocParser.with_params
                   (map (fun a => (Some a, path_seed a true)) front
                    ++ map (fun a => (Some a, path_seed a false)) back)
                   DocParser.__init__)) as [l Hl].
    exists l. rewrite Hl. f_equal. cbn [DocParser.params DocParser.with_params].
    unfold OrderedDict.keys. rewrite !map_app, !map_map. reflexivity.
  - apply names_match_parse. cbn [DocParser.params DocParser.with_params].
    intros k e Hk.
    assert (G : forall (l : list (option string * Param.t)),
               Forall (fun kv => Param.name (snd kv) = Some (of_arg (fst kv))) l ->
               forall k e, OrderedDict.get arg_eq_dec k l = Some e ->
                           Param.name e = Some (of_arg k)).
    { clear. induction l as [|[k0 e0] l IH]; intros Hall k e H.
      - discriminate.
      - inversion Hall as [|? ? H0 Hall']; subst. cbn [OrderedDict.get] in H.
        destruct (arg_eq_dec k k0) as [->|N].
        + injection H as <-. exact H0.
        + now apply IH. }
    eapply G; [|exact Hk].
    apply Forall_app; split; apply Forall_forall;
      intros kv Hkv; apply in_map_iff in Hkv;
      destruct Hkv as (a & <- & _); reflexivity.
Qed.

(** X14: for a callable whose signature [inspect.getargspec] refuses, a
    new decorator raises [TypeError] and returns no wrapper; the
    documentation is not read and the accumulator stays empty; yet
    [self.func] and [__name__] are set, so that every later call of the
    decorator runs the callable on its arguments and parses nothing. *)
Theorem operation_unreadable_signature
        (fn : pyfunction) (nickname : pyvalue) (kwds : list (string * pyobj))
        (rest : list pyobj) (kw : list (string * pyobj)) :
  fn_argspec fn = None ->
  let f := ObjFunction fn in
  let r := __call__ run {| pos := f :: rest; kw := kw |}
                    (new_operation nickname kwds) in
  fst r = Raise TypeError /\
  doc (self (snd r)) = DocParser.__init__ /\
  func (self (snd r)) = Some f /\
  __name__ (self (snd r)) = Some (fn_name fn) /\
  calls (snd r) = [GetArgSpec f] /\
  (forall a, __call__ run a (snd r) = (run f a, snd r)).
Proof.
  intros Hspec. cbv zeta.
  assert (Hr : __call__ run {| pos := ObjFunction fn :: rest; kw := kw |}
                        (new_operation nickname kwds)
               = (Raise TypeError,
                  {| self := with_name (fn_name fn)
                               (with_func (ObjFunction fn)
                                  (__init__ nickname kwds));
                     calls := [GetArgSpec (ObjFunction fn)] |})).
  { unfold __call__, bind, gets, ret, new_operation. simpl.
    rewrite _parse_operation_function, Hspec. reflexivity. }
  rewrite Hr. cbn [fst snd self calls].
  split; [reflexivity|]. split; [reflexivity|]. split; [reflexivity|].
  split; [reflexivity|]. split; [reflexivity|].
  intros a. now apply operation_call_built.
Qed.

End OperationProperties.

Lemma operation_seeds_signature_witness :
  let s1 := snd (operation.__call__ returns_none (call_with (ObjFunction get_pet))
                          (new_operation PyNone [])) in
  operation.func_args (operation.self s1) = ["pet_id"; "verbose"] /\
  DocParser.params (operation.doc (operation.self s1))
  = [(Some "pet_id", path_seed "pet_id" true);
     (Some "verbose", path_seed "verbose" false)].
Proof.
  cbv zeta.
  assert (Hnd : NoDup (["pet_id"] ++ ["verbose"])).
  { simpl. repeat constructor; simpl; intuition discriminate. }
  destruct (@operation_seeds_signature
              returns_none get_pet _ ["pet_id"] ["verbose"] PyNone [] [] []
              eq_refl eq_refl eq_refl Hnd) as (H1 & _ & H3 & _).
  split; [exact H1|].
  unfold call_with. rewrite H3. reflexivity.
Defined.

Lemma operation_unreadable_signature_witness :
  fst (operation.__call__ returns_none (call_with (ObjFunction builtin_len))
                (new_operation PyNone []))
  = Raise TypeError.
Proof.
  exact (proj1 (@operation_unreadable_signature
                  returns_none builtin_len PyNone [] [] [] eq_refl)).
Defined.


(** ** Properties of the model decorator *)

Section ModelProperties.
Import model.

Lemma model_first_call_cls
      (c : pyclass) (args : list pyobj) (kwargs : list (string * pyobj))
      (registry : list t) (rest : list pyobj) (kw : list (string * pyobj)) :
  cls (self (snd (__call__ {| pos := ObjClass c :: rest; kw := kw |}
                           (new_model args kwargs registry))))
  = Some (ObjClass c).
Proof.
  unfold __call__, bind, gets, ret, new_model. simpl.
  pose proof (_parse_model_sets_cls c
                {| self := __init__ args kwargs; models := registry |}) as H.
  destruct (_parse_model (ObjClass c) _) as [[u|e] s1]; exact H.
Qed.

Lemma model_call_many_built (s : state) (c : pyclass) (later : list callargs) :
  cls (self s) = Some (ObjClass c) -> call_many later s = s.
Proof.
  intros H. induction later as [|a later IH]; [reflexivity|].
  unfold call_many in *. simpl. rewrite (model_call_built _ a H). exact IH.
Qed.

(** X15: a class whose constructor cannot be introspected is never
    registered by its decorator: the first call raises, the calls that
    follow return the class as if it had been processed, and the registry
    stays the one before the first call, however often the decorator is
    called again. *)
Theorem failed_model_is_never_registered
        (c : pyclass) (init : pyfunction) (e : exn)
        (args : list pyobj) (kwargs : list (string * pyobj))
        (registry : list t) (rest : list pyobj) (kw : list (string * pyobj))
        (later : list callargs) :
  cls_init c = Some init ->
  introspection_error init = Some e ->
  let r := __call__ {| pos := ObjClass c :: rest; kw := kw |}
                    (new_model args kwargs registry) in
  fst r = Raise e /\
  (forall a, fst (__call__ a (snd r)) = Ok (ObjClass c)) /\
  models (call_many later (snd r)) = registry.
Proof.
  intros Hinit Herr. cbv zeta.
  pose proof (model_first_call_cls c args kwargs registry rest kw) as Hcls.
  assert (Hr : fst (__call__ {| pos := ObjClass c :: rest; kw := kw |}
                             (new_model args kwargs registry)) = Raise e /\
               models (snd (__call__ {| pos := ObjClass c :: rest; kw := kw |}
                                     (new_model args kwargs registry)))
               = registry).
  { unfold __call__, bind, gets, new_model. simpl.
    rewrite _parse_model_unfold. cbv zeta. rewrite Hinit.
    rewrite _parse_args_unfold. unfold introspection_error in Herr.
    destruct (fn_argspec init) as [spec|].
    - destruct (list_remove "self" (ArgSpec.args spec)); [discriminate|].
      injection Herr as <-. split; reflexivity.
    - injection Herr as <-. split; reflexivity. }
  destruct Hr as [Hr1 Hr2]. split; [exact Hr1|]. split.
  - intros a. rewrite (model_call_built _ a Hcls). reflexivity.
  - rewrite (model_call_many_built _ later Hcls). exact Hr2.
Qed.

Lemma failed_model_is_never_registered_witness :
  let r := __call__ (call_with (ObjClass gadget_class)) (new_model [] [] []) in
  fst r = Raise ValueError /\
  models (call_many [call_with (ObjClass gadget_class);
                     call_with (ObjClass gadget_class)] (snd r)) = [].
Proof.
  destruct (@failed_model_is_never_registered
              gadget_class gadget_init ValueError [] [] [] [] []
              [call_with (ObjClass gadget_class);
               call_with (ObjClass gadget_class)] eq_refl eq_refl)
    as (H1 & _ & H3).
  split; [exact H1|exact H3].
Defined.

(** X16: a class without [__init__] in its [dir] is registered without
    any introspection: the call returns the class, the [id] is the name
    of the class, no name is required, the accumulator holds what the
    documentation of the class gives on a new accumulator, and the
    instance is appended to the registry. *)
Theorem model_without_constructor
        (c : pyclass) (args : list pyobj) (kwargs : list (string * pyobj))
        (registry : list t) (rest : list pyobj) (kw : list (string * pyobj)) :
  cls_init c = None ->
  let r := __call__ {| pos := ObjClass c :: rest; kw := kw |}
                    (new_model args kwargs registry) in
  fst r = Ok (ObjClass c) /\
  id (self (snd r)) = Some (cls_name c) /\
  required (self (snd r)) = [] /\
  doc (self (snd r))
  = DocParser.parse_docstring (cls_doc c) DocParser.__init__ /\
  models (snd r) = registry ++ [self (snd r)].
Proof.
  intros Hinit. cbv zeta.
  unfold __call__, bind, gets, ret, new_model. simpl.
  rewrite _parse_model_unfold. cbv zeta. rewrite Hinit.
  repeat split.
Qed.

Lemma model_without_constructor_witness :
  let r := __call__ (call_with (ObjClass plain_class)) (new_model [] [] []) in
  fst r = Ok (ObjClass plain_class) /\ length (models (snd r)) = 1.
Proof.
  destruct (@model_without_constructor plain_class [] [] [] [] [] eq_refl)
    as (H1 & _ & _ & _ & H5).
  split; [exact H1|].
  unfold call_with. rewrite H5. reflexivity.
Defined.

Ltac grows_by_at_most_one :=
  first [ exists []; split; [now rewrite app_nil_r|simpl; lia]
        | eexists [_]; split; [reflexivity|simpl; lia] ].

(** X17: the registry is append-only: a call of a [model] decorator, in
    any state of the instance and of the registry and on any arguments,
    whether it returns or raises, leaves the registry it found as a
    prefix of the new one and appends at most one entry. *)
Theorem registry_is_append_only (a : callargs) (s : state) :
  exists l,
    models (snd (__call__ a s)) = models s ++ l /\ length l <= 1.
Proof.
  assert (Hargs : forall o s0,
            exists l, models (snd (_parse_args o s0)) = models s0 ++ l
                      /\ l = []).
  { intros o s0. exists []. split; [|reflexivity]. rewrite app_nil_r.
    unfold _parse_args, bind, lift_option, on_self, modify, ret, raise.
    destruct (getargspec o) as [spec|]; simpl; [|reflexivity].
    destruct (list_remove "self" (ArgSpec.args spec)); reflexivity. }
  assert (Hmodel : forall o s0,
            exists l, models (snd (_parse_model o s0)) = models s0 ++ l
                      /\ length l <= 1).
  { intros o s0.
    unfold _parse_model, bind, lift_option, on_self, modify, ret, raise,
      models_append.
    destruct (getattr_name o) as [n|]; simpl; [|grows_by_at_most_one].
    destruct (getattr_init o) as [i|]; simpl; [|grows_by_at_most_one].
    match goal with
    | |- context [_parse_args i ?s1] =>
        destruct (Hargs i s1) as (l & Hl & ->);
        destruct (_parse_args i s1) as [[u|e] s2]
    end; simpl in *; rewrite app_nil_r in Hl; rewrite Hl;
      grows_by_at_most_one. }
  unfold __call__, bind, gets, ret, raise.
  destruct (cls (self s)) as [c0|]; simpl;
    [destruct (obj_truthy c0); simpl; [grows_by_at_most_one|]|];
    (destruct (pos a) as [|o rest]; simpl; [grows_by_at_most_one|];
     destruct (Hmodel o s) as (l & Hl & Hlen);
     destruct (_parse_model o s) as [[u|e] s1]; simpl in *;
     exists l; split; assumption).
Qed.

End ModelProperties.

(** ** What the documentation can change in a seeded parameter *)

Section SeededParameters.
Import DocParser.

Lemma param_entry_set x y e self :
  param_entry x (with_params (OrderedDict.set arg_eq_dec y e (params self)) self)
  = if arg_eq_dec x y then e else param_entry x self.
Proof.
  unfold param_entry. cbn [params with_params].
  destruct (arg_eq_dec x y) as [->|N].
  - now rewrite get_set_same.
  - now rewrite get_set_other.
Qed.

Lemma param_entry_dispatch x self f :
  param_entry x (dispatch self f)
  = if arg_eq_dec x (Field.arg f)
    then entry_after f (param_entry x self)
    else param_entry x self.
Proof.
  destruct f as [tg a b]. unfold dispatch, entry_after.
  cbn [Field.tag Field.arg Field.body].
  pattern tg, (_get_parser tg). apply _get_parser_cases;
    try (cbn [String.eqb Ascii.eqb Bool.eqb];
         rewrite ?_parse_param_as_set, ?_parse_type_as_set,
           ?_parse_in_as_set, ?_parse_required_as_set;
         rewrite param_entry_set;
         destruct (arg_eq_dec x a) as [->|N]; reflexivity);
    try (cbn [String.eqb Ascii.eqb Bool.eqb];
         try rewrite _parse_ptype_frame;
         destruct (arg_eq_dec x a); reflexivity).
  - unfold _parse_rtype.
    destruct (arg_truthy a); destruct (arg_eq_dec x a); reflexivity.
  - intros tg' Hn.
    assert (forall lit, In lit known_tags -> String.eqb tg' lit = false) as E.
    { intros lit Hl. apply String.eqb_neq. intros ->. contradiction. }
    rewrite !E by (unfold known_tags; simpl; tauto).
    destruct (arg_eq_dec x a); reflexivity.
Qed.

Lemma parse_keeps (get_key : Param.t -> option pyvalue) (tg : string)
      (x : option string) (v : pyvalue) :
  (forall f e, tagged tg x f = false -> x = Field.arg f ->
               get_key e = Some v -> get_key (entry_after f e) = Some v) ->
  forall fields self,
    forallb (fun f => negb (tagged tg x f)) fields = true ->
    get_key (param_entry x self) = Some v ->
    get_key (param_entry x (fold_left dispatch fields self)) = Some v.
Proof.
  intros Hstep fields. induction fields as [|f fields IH];
    intros self Hall Hv; simpl in *; [exact Hv|].
  apply andb_true_iff in Hall as [Hf Hall]. apply negb_true_iff in Hf.
  apply IH; [exact Hall|]. rewrite param_entry_dispatch.
  destruct (arg_eq_dec x (Field.arg f)) as [E|N]; [|exact Hv].
  now apply Hstep.
Qed.

Lemma tagged_false_tag tg x f :
  tagged tg x f = false -> x = Field.arg f ->
  String.eqb (Field.tag f) tg = false.
Proof.
  unfold tagged. intros H ->.
  destruct (arg_eq_dec (Field.arg f) (Field.arg f)); [|contradiction].
  now rewrite andb_true_r in H.
Qed.

(** X18: a value that the entry of a parameter holds stands until a
    field of the matching tag names the parameter: through any document
    without an [in] field for [x] the [paramType] of [x], once set, is
    kept (a [param] field does not replace it by ["query"]); without a
    [type] field for [x] its [dataType] is kept; without a [required]
    field for [x] its [required] is kept. *)
Theorem parameter_values_stand_until_retagged
        (fields : docstring) (self : t) (x : option string) (v : pyvalue) :
  (forallb (fun f => negb (tagged "in" x f)) fields = true ->
   Param.paramType (param_entry x self) = Some v ->
   Param.paramType (param_entry x (parse_docstring (Some fields) self))
   = Some v) /\
  (forallb (fun f => negb (tagged "type" x f)) fields = true ->
   Param.dataType (param_entry x self) = Some v ->
   Param.dataType (param_entry x (parse_docstring (Some fields) self))
   = Some v) /\
  (forallb (fun f => negb (tagged "required" x f)) fields = true ->
   Param.required (param_entry x self) = Some v ->
   Param.required (param_entry x (parse_docstring (Some fields) self))
   = Some v).
Proof.
  unfold parse_docstring. split; [|split].
  - apply (parse_keeps Param.paramType). intros f e Ht Hx He.
    pose proof (@tagged_false_tag _ _ _ Ht Hx) as E.
    unfold entry_after. cbv zeta.
    destruct (String.eqb (Field.tag f) "param").
    { unfold param_update. simpl. now rewrite He. }
    destruct (String.eqb (Field.tag f) "type"); [exact He|].
    rewrite E.
    destruct (String.eqb (Field.tag f) "required"); exact He.
  - apply (parse_keeps Param.dataType). intros f e Ht Hx He.
    pose proof (@tagged_false_tag _ _ _ Ht Hx) as E.
    unfold entry_after. cbv zeta.
    destruct (String.eqb (Field.tag f) "param"); [exact He|].
    rewrite E.
    destruct (String.eqb (Field.tag f) "in"); [exact He|].
    destruct (String.eqb (Field.tag f) "required"); exact He.
  - apply (parse_keeps Param.required). intros f e Ht Hx He.
    pose proof (@tagged_false_tag _ _ _ Ht Hx) as E.
    unfold entry_after. cbv zeta.
    destruct (String.eqb (Field.tag f) "param"); [exact He|].
    destruct (String.eqb (Field.tag f) "type"); [exact He|].
    destruct (String.eqb (Field.tag f) "in"); [exact He|].
    rewrite E. exact He.
Qed.

Lemma parameter_values_stand_until_retagged_witness :
  let seeded :=
    with_params [(Some "pet_id", path_seed "pet_id" true)] __init__ in
  Param.paramType
    (param_entry (Some "pet_id")
       (parse_docstring
          (Some [field "param" "pet_id" "the id"; field "in" "other" "body"])
          seeded))
  = Some (PyStr "path").
Proof.
  exact (proj1 (@parameter_values_stand_until_retagged
                  [field "param" "pet_id" "the id"; field "in" "other" "body"]
                  (with_params [(Some "pet_id", path_seed "pet_id" true)]
                     __init__)
                  (Some "pet_id") (PyStr "path")) eq_refl eq_refl).
Defined.

End SeededParameters.

(** ** Properties of the property tags and of closed elements *)

Section PropertyTagProperties.
Import DocParser.

Lemma setdefault_update_as_set
      (K V : Type) (eq_dec : forall a b : K, {a = b} + {a <> b})
      (k : K) (v : V) (upd : V -> V) (d : OrderedDict.t K V) :
  OrderedDict.setdefault_update eq_dec k v upd d
  = OrderedDict.set eq_dec k
      (upd (match OrderedDict.get eq_dec k d with
            | Some e => e
            | None => v
            end)) d.
Proof.
  unfold OrderedDict.setdefault_update.
  destruct (OrderedDict.get eq_dec k d); reflexivity.
Qed.

(** X19: for one property name, a [property] field and a [ptype] field
    can come in either order: both orders leave the same accumulator;
    and neither touches the parameters or the response messages. *)
Theorem property_tags_commute
        (self : t) (p : option string) (bp bt : option ParsedDocstring) :
  _parse_property p bp (_parse_ptype p bt self)
  = _parse_ptype p bt (_parse_property p bp self) /\
  params (_parse_property p bp (_parse_ptype p bt self)) = params self /\
  responseMessages (_parse_property p bp (_parse_ptype p bt self))
  = responseMessages self.
Proof.
  unfold _parse_property, _parse_ptype. cbv zeta.
  destruct (_parse_epytext_para "code" bt); try destruct (py_eq _ _);
    cbn [properties with_properties params responseMessages];
    rewrite ?setdefault_update_as_set, ?get_set_same, ?set_set;
    repeat split.
Qed.

(** X20: a [ptype] field of plain text that follows a list-typed [ptype]
    field for the same property replaces the [type] and leaves the
    [items] of the list in the entry: [update] adds and replaces keys, it
    removes none. *)
Theorem plain_ptype_keeps_items
        (self : t) (p : option string) (b1 b2 : ParsedDocstring) (W : string) :
  last_span "code" "list" (markup b1) ->
  last_span "link" W (markup b1) ->
  no_start "code" (markup b2) = true ->
  OrderedDict.get arg_eq_dec p
    (properties (_parse_ptype p (Some b2) (_parse_ptype p (Some b1) self)))
  = Some {| Property.type := Some (PyStr (strip (to_plaintext b2)));
            Property.description :=
              Property.description (property_entry p self);
            Property.default := Property.default (property_entry p self);
            Property.items := Some (PyStr W) |}.
Proof.
  intros Hc Hl Hn.
  rewrite (proj2 (ptype_stores (_parse_ptype p (Some b1) self) p b2) Hn).
  unfold property_entry at 1 2 3.
  now rewrite (proj1 (ptype_stores self p b1) W Hc Hl).
Qed.

Lemma plain_ptype_keeps_items_witness :
  OrderedDict.get arg_eq_dec (Some "p")
    (properties (_parse_ptype (Some "p") (Some (plain "int"))
                   (_parse_ptype (Some "p") (Some body_list_of_widget)
                      __init__)))
  = Some {| Property.type := Some (PyStr "int");
            Property.description := None;
            Property.default := None;
            Property.items := Some (PyStr "Widget") |}.
Proof.
  apply (@plain_ptype_keeps_items
           __init__ (Some "p") body_list_of_widget (plain "int") "Widget").
  - exists [StartTag "epytext" []; StartTag "para" [("inline", "True")]], [],
      [Data "list"].
    eexists. repeat split.
  - exists [StartTag "epytext" []; StartTag "para" [("inline", "True")];
            StartTag "code" []; Data "list"; EndTag "code"; Data " of "], [],
      [StartTag "name" []; Data "Widget"; EndTag "name";
       StartTag "target" []; Data "Widget"; EndTag "target"].
    eexists. repeat split.
  - reflexivity.
Defined.

(** X21: the parser tracks the element with a flag, not with a depth:
    once the element has closed, the text that follows is not taken until
    the element opens again, even inside an enclosing element of the same
    name. *)
Theorem text_after_closing_is_ignored
        (t : string) (pre post : list html_event) :
  no_start t post = true ->
  EpytextParser.get_data
    (EpytextParser.feed (pre ++ EndTag t :: post) (EpytextParser.__init__ t))
  = EpytextParser.get_data
      (EpytextParser.feed pre (EpytextParser.__init__ t)).
Proof.
  intros Hpost. rewrite feed_app.
  set (q := EpytextParser.feed pre (EpytextParser.__init__ t)).
  assert (Ht : EpytextParser.tag q = t) by (unfold q; apply feed_tag).
  change (EpytextParser.feed (EndTag t :: post) q)
    with (EpytextParser.feed post (EpytextParser.handle_endtag t q)).
  unfold EpytextParser.handle_endtag. rewrite Ht, String.eqb_refl.
  rewrite feed_outside; [reflexivity|reflexivity|exact Hpost].
Qed.

Lemma text_after_closing_is_ignored_witness :
  EpytextParser.get_data
    (EpytextParser.feed
       ([StartTag "code" []; Data "a"; StartTag "code" []; Data "b"]
        ++ EndTag "code" :: [Data "c"; EndTag "code"])
       (EpytextParser.__init__ "code"))
  = PyStr "b".
Proof.
  exact (@text_after_closing_is_ignored
           "code" [StartTag "code" []; Data "a"; StartTag "code" []; Data "b"]
           [Data "c"; EndTag "code"] eq_refl).
Defined.

End PropertyTagProperties.

(** ** The documentation of a class over its seeded properties *)

Section ModelDocumentation.
Import DocParser.

Lemma property_type_dispatch p self f :
  tagged "ptype" p f = false ->
  Property.type (property_entry p (dispatch self f))
  = Property.type (property_entry p self).
Proof.
  destruct f as [tg a b]. unfold dispatch, tagged.
  cbn [Field.tag Field.arg Field.body].
  pattern tg, (_get_parser tg). apply _get_parser_cases;
    try (intros _; try rewrite _parse_param_frame; reflexivity).
  - intros _. unfold _parse_rtype. destruct (arg_truthy a); reflexivity.
  - intros _. unfold _parse_property, property_entry.
    cbn [properties with_properties].
    destruct (arg_eq_dec p a) as [->|N].
    + rewrite get_setdefault_update_same.
      destruct (OrderedDict.get arg_eq_dec a (properties self)); reflexivity.
    + now rewrite get_setdefault_update_other.
  - cbn [String.eqb Ascii.eqb Bool.eqb andb].
    destruct (arg_eq_dec p a) as [->|N]; [discriminate|]. intros _.
    unfold _parse_ptype, property_entry. cbv zeta.
    destruct (_parse_epytext_para "code" b); try destruct (py_eq _ _);
      try reflexivity; cbn [properties with_properties];
      now rewrite get_setdefault_update_other.
  - intros tg' _ _. reflexivity.
Qed.

Lemma property_description_dispatch p self f :
  tagged "property" p f = false ->
  Property.description (property_entry p (dispatch self f))
  = Property.description (property_entry p self).
Proof.
  destruct f as [tg a b]. unfold dispatch, tagged.
  cbn [Field.tag Field.arg Field.body].
  pattern tg, (_get_parser tg). apply _get_parser_cases;
    try (intros _; try rewrite _parse_param_frame; reflexivity).
  - intros _. unfold _parse_rtype. destruct (arg_truthy a); reflexivity.
  - cbn [String.eqb Ascii.eqb Bool.eqb andb].
    destruct (arg_eq_dec p a) as [->|N]; [discriminate|]. intros _.
    unfold _parse_property, property_entry. cbn [properties with_properties].
    now rewrite get_setdefault_update_other.
  - intros _. unfold _parse_ptype, property_entry. cbv zeta.
    destruct (_parse_epytext_para "code" b); try destruct (py_eq _ _);
      try reflexivity; cbn [properties with_properties];
      (destruct (arg_eq_dec p a) as [->|N];
       [rewrite get_setdefault_update_same;
        destruct (OrderedDict.get arg_eq_dec a (properties self)); reflexivity
       |now rewrite get_setdefault_update_other]).
  - intros tg' _ _. reflexivity.
Qed.

Lemma property_type_parse p fields self :
  forallb (fun f => negb (tagged "ptype" p f)) fields = true ->
  Property.type (property_entry p (fold_left dispatch fields self))
  = Property.type (property_entry p self).
Proof.
  revert self. induction fields as [|f fields IH]; intros self H; simpl in *.
  - reflexivity.
  - apply andb_true_iff in H as [Hf H]. apply negb_true_iff in Hf.
    rewrite IH by exact H. now apply property_type_dispatch.
Qed.

Lemma property_description_parse p fields self :
  forallb (fun f => negb (tagged "property" p f)) fields = true ->
  Property.description (property_entry p (fold_left dispatch fields self))
  = Property.description (property_entry p self).
Proof.
  revert self. induction fields as [|f fields IH]; intros self H; simpl in *.
  - reflexivity.
  - apply andb_true_iff in H as [Hf H]. apply negb_true_iff in Hf.
    rewrite IH by exact H. now apply property_description_dispatch.
Qed.

Lemma property_default_parse p fields self :
  Property.default (property_entry p (fold_left dispatch fields self))
  = Property.default (property_entry p self).
Proof.
  revert self. induction fields as [|f fields IH]; intros self; simpl.
  - reflexivity.
  - now rewrite IH, property_entry_default_dispatch.
Qed.

Lemma parse_docstring_fields_of text self :
  parse_docstring text self = fold_left dispatch (fields_of text) self.
Proof. destruct text; reflexivity. Qed.

(** C8: for a class whose constructor is [(self, a1..an, d1=v1..dk=vk)],
    the call of a new decorator returns the class, with [a1..an] as the
    [required] sequence; every [ai] is seeded with the property
    [{type: "string"}] and every [dj] with
    [{type: "string", default: vj}], and the documentation of the class
    is dispatched afterwards on these seeds.  In the descriptor that the
    decorator leaves: the last [ptype] field of plain text for a name
    gives its [type], in place of the seeded ["string"]; the last
    [property] field for a name gives its [description]; a name that no
    [ptype] field mentions keeps its seeded [type]; and the [default] of
    every name stays the seeded one. *)
Theorem model_seeds_properties
        (c : pyclass) (init : pyfunction) (req dfl : list string)
        (vs : list pyvalue) (dflt : option (list pyvalue))
        (args : list pyobj) (kwargs : list (string * pyobj))
        (registry : list model.t) (rest : list pyobj)
        (kw : list (string * pyobj)) :
  cls_init c = Some init ->
  fn_argspec init
  = Some {| ArgSpec.args := "self" :: req ++ dfl; ArgSpec.defaults := dflt |} ->
  tuple_or_empty dflt = vs ->
  length dfl = length vs ->
  NoDup (req ++ dfl) ->
  let r := model.__call__ {| pos := ObjClass c :: rest; kw := kw |}
                          (new_model args kwargs registry) in
  let seeded :=
    with_properties (seeded_properties req (combine dfl vs)) __init__ in
  let final := model.doc (model.self (snd r)) in
  fst r = Ok (ObjClass c) /\
  model.required (model.self (snd r)) = req /\
  final = parse_docstring (cls_doc c) seeded /\
  (forall a, In a req ->
     OrderedDict.get arg_eq_dec (Some a) (properties seeded)
     = Some required_seed) /\
  (forall d v, In (d, v) (combine dfl vs) ->
     OrderedDict.get arg_eq_dec (Some d) (properties seeded)
     = Some (default_seed v)) /\
  (forall pre post p b,
     fields_of (cls_doc c)
     = pre ++ {| Field.tag := "ptype"; Field.arg := p; Field.body := Some b |}
           :: post ->
     no_start "code" (markup b) = true ->
     forallb (fun f => negb (tagged "ptype" p f)) post = true ->
     Property.type (property_entry p final)
     = Some (PyStr (strip (to_plaintext b)))) /\
  (forall pre post p b,
     fields_of (cls_doc c)
     = pre ++ {| Field.tag := "property"; Field.arg := p;
                 Field.body := Some b |} :: post ->
     forallb (fun f => negb (tagged "property" p f)) post = true ->
     Property.description (property_entry p final)
     = Some (PyStr (strip (to_plaintext b)))) /\
  (forall p,
     forallb (fun f => negb (tagged "ptype" p f)) (fields_of (cls_doc c))
     = true ->
     Property.type (property_entry p final)
     = Property.type (property_entry p seeded)) /\
  (forall p,
     Property.default (property_entry p final)
     = Property.default (property_entry p seeded)).
Proof.
  intros Hinit Hspec Hvs Hlen Hnd. cbv zeta.
  destruct (@seeded_model_core c init req dfl vs dflt args kwargs registry
              rest kw Hinit Hspec Hvs Hlen Hnd)
    as (H1 & H2 & H3 & H4 & H5 & _).
  split; [exact H1|]. split; [exact H2|]. split; [exact H3|].
  split; [exact H4|]. split; [exact H5|].
  rewrite H3, parse_docstring_fields_of.
  split; [|split; [|split]].
  - intros pre post p b Hdoc Hn Hpost. rewrite Hdoc.
    rewrite fold_left_app. cbn [fold_left].
    rewrite property_type_parse by exact Hpost.
    unfold dispatch. cbn [Field.tag Field.arg Field.body].
    change (_get_parser "ptype") with _parse_ptype.
    unfold property_entry.
    now rewrite (proj2 (ptype_stores _ p b) Hn).
  - intros pre post p b Hdoc Hpost. rewrite Hdoc.
    rewrite fold_left_app. cbn [fold_left].
    rewrite property_description_parse by exact Hpost.
    unfold dispatch. cbn [Field.tag Field.arg Field.body].
    change (_get_parser "property") with _parse_property.
    unfold _parse_property, property_entry. cbn [properties with_properties].
    now rewrite get_setdefault_update_same.
  - intros p Hp. now apply property_type_parse.
  - intros p. apply property_default_parse.
Qed.

Lemma model_seeds_properties_witness :
  let r := model.__call__ (call_with (ObjClass documented_widget_class))
                          (new_model [] [] []) in
  let final := model.doc (model.self (snd r)) in
  model.required (model.self (snd r)) = ["a"] /\
  Property.type (property_entry (Some "a") final) = Some (PyStr "int") /\
  Property.type (property_entry (Some "b") final) = Some (PyStr "string") /\
  Property.description (property_entry (Some "b") final)
  = Some (PyStr "the b") /\
  Property.default (property_entry (Some "b") final) = Some (PyInt 5).
Proof.
  cbv zeta.
  assert (Hnd : NoDup (["a"] ++ ["b"])).
  { simpl. repeat constructor; simpl; intuition discriminate. }
  destruct (@model_seeds_properties
              documented_widget_class widget_init ["a"] ["b"] [PyInt 5]
              (Some [PyInt 5]) [] [] [] [] [] eq_refl eq_refl eq_refl eq_refl
              Hnd)
    as (_ & Hr & _ & _ & _ & Ht & Hd & Hs & Hv).
  split; [exact Hr|]. split; [|split; [|split]].
  - exact (Ht [] [field "property" "b" "the b
"] (Some "a") (plain " int ") eq_refl eq_refl eq_refl).
  - exact (Hs (Some "b") eq_refl).
  - exact (Hd [field "ptype" "a" " int "] [] (Some "b") (plain "the b
") eq_refl eq_refl).
  - exact (Hv (Some "b")).
Defined.

End ModelDocumentation.
